(** * The ledger engine of [bankgui.py]

    A shallow embedding of the classes [SavingsAccount], [CheckingAccount],
    [Customer] and [Bank] of [src/bankgui.py], and the properties of the
    ledger that the specification states about them.

    Modelling choices.
    - Amounts, rates and limits are Python [float]s.  They are modelled by
      exact rationals ([Q]); Python's [==], [<=], [<] on them are [Qeq],
      [Qle_bool] and [Qltb].  Rounding, infinities and NaN are outside the
      model.
    - A [dict] keyed by strings is a [gmap string _]; the order in which a
      dict is traversed is not modelled.
    - The objects of the bank live in the two dicts of the [Bank]; a
      reference to one of them is its key, and a method call on a reference
      writes the object's new state back under that key.
    - The two JSON files are modelled after parsing, as [json] trees.  The
      counter [saves] of a [Disk] is ghost state: it counts the calls of
      [_save_data] that completed.
    - [random.randint] is an oracle: the drawn integer is an argument of
      [create_account]. *)

From Stdlib Require Import QArith Lqa Ascii String.
From stdpp Require Import gmap strings list fin_maps pretty.

#[local] Set Warnings "-register-all".

(** ** Numbers *)

Definition Qltb (x y : Q) : bool := negb (Qle_bool y x).

(** ** Exceptions *)

Inductive exn : Type :=
| ValueError (msg : string)
| KeyError (key : string)
| TypeError
| AttributeError.

Inductive result (A : Type) : Type :=
| Return (a : A)
| Raise (e : exn).
Arguments Return {A} a.
Arguments Raise {A} e.

(** Sequencing: an exception ends the computation.  [x ← r; k] below is
    [bind r (λ x, k)]. *)
Definition bind {A B : Type} (r : result A) (k : A → result B) : result B :=
  match r with
  | Return a => k a
  | Raise e => Raise e
  end.

#[export] Instance result_bind : MBind result := λ A B k r, bind r k.

(** ** JSON documents, after parsing *)

Inductive json : Type :=
| JNull
| JBool (b : bool)
| JNum (q : Q)
| JStr (s : string)
| JArr (l : list json)
| JObj (o : gmap string json).

(** [d[key]] on a parsed JSON object. *)
Definition getitem (d : gmap string json) (key : string) : result json :=
  match d !! key with
  | Some v => Return v
  | None => Raise (KeyError key)
  end.

(** The fields of the model are typed as the annotations of the source say
    ([str], [float]); a JSON value of another type is refused here, where
    Python would store it unchecked. *)
Definition as_str (j : json) : result string :=
  match j with JStr s => Return s | _ => Raise TypeError end.

Definition as_float (j : json) : result Q :=
  match j with JNum q => Return q | _ => Raise TypeError end.

(** A JSON value used as a dict; [e] is what Python raises when it is not
    one ([TypeError] for a subscript, [AttributeError] for [.get]). *)
Definition as_dict (e : exn) (j : json) : result (gmap string json) :=
  match j with JObj o => Return o | _ => Raise e end.

(** [v == s] for the result [v] of [d.get(key)] and a string [s]. *)
Definition is_str (v : option json) (s : string) : bool :=
  match v with
  | Some (JStr s') => String.eqb s' s
  | _ => false
  end.

(** [to_dict] of the abstract base class [Account], which the two classes
    reach through [super()]. *)
Definition super_to_dict (account_number account_holder_id : string)
    (balance : Q) : gmap string json :=
  <["type" := JStr "account"]>
    (<["balance" := JNum balance]>
      (<["account_holder_id" := JStr account_holder_id]>
        (<["account_number" := JStr account_number]> ∅))).

(** ** [class SavingsAccount(Account)] *)

Module SavingsAccount.

Record t : Type := mk {
  _account_number : string;
  _account_holder_id : string;
  _balance : Q;
  _interest_rate : Q
}.

Definition __init__ (account_number account_holder_id : string)
    (initial_balance interest_rate : Q) : t :=
  {| _account_number := account_number;
     _account_holder_id := account_holder_id;
     _balance := initial_balance;
     _interest_rate :=
       if Qle_bool 0 interest_rate then interest_rate else 0.01%Q |}.

(** [@interest_rate.setter]: the outcome of the assignment and the state
    of the object after it. *)
Definition interest_rate_setter (self : t) (value : Q) : result unit * t :=
  if Qltb value 0 then
    (Raise (ValueError "Interest rate cannot be negative."), self)
  else
    (Return (),
     {| _account_number := _account_number self;
        _account_holder_id := _account_holder_id self;
        _balance := _balance self;
        _interest_rate := value |}).

Definition deposit (self : t) (amount : Q) : bool * t :=
  if Qle_bool amount 0 then (false, self)
  else
    (true,
     {| _account_number := _account_number self;
        _account_holder_id := _account_holder_id self;
        _balance := (_balance self + amount)%Q;
        _interest_rate := _interest_rate self |}).

Definition withdraw (self : t) (amount : Q) : bool * t :=
  if Qle_bool amount 0 || Qltb (_balance self) amount then (false, self)
  else
    (true,
     {| _account_number := _account_number self;
        _account_holder_id := _account_holder_id self;
        _balance := (_balance self - amount)%Q;
        _interest_rate := _interest_rate self |}).

Definition apply_interest (self : t) : t :=
  {| _account_number := _account_number self;
     _account_holder_id := _account_holder_id self;
     _balance := (_balance self + _balance self * _interest_rate self)%Q;
     _interest_rate := _interest_rate self |}.

Definition to_dict (self : t) : gmap string json :=
  <["type" := JStr "savings"]>
    (<["interest_rate" := JNum (_interest_rate self)]>
      (super_to_dict (_account_number self) (_account_holder_id self)
         (_balance self))).

End SavingsAccount.

(** ** [class CheckingAccount(Account)] *)

Module CheckingAccount.

Record t : Type := mk {
  _account_number : string;
  _account_holder_id : string;
  _balance : Q;
  _overdraft_limit : Q
}.

Definition __init__ (account_number account_holder_id : string)
    (initial_balance overdraft_limit : Q) : t :=
  {| _account_number := account_number;
     _account_holder_id := account_holder_id;
     _balance := initial_balance;
     _overdraft_limit :=
       if Qle_bool 0 overdraft_limit then overdraft_limit else 0%Q |}.

Definition overdraft_limit_setter (self : t) (value : Q) : result unit * t :=
  if Qltb value 0 then
    (Raise (ValueError "Overdraft limit cannot be negative."), self)
  else
    (Return (),
     {| _account_number := _account_number self;
        _account_holder_id := _account_holder_id self;
        _balance := _balance self;
        _overdraft_limit := value |}).

Definition deposit (self : t) (amount : Q) : bool * t :=
  if Qle_bool amount 0 then (false, self)
  else
    (true,
     {| _account_number := _account_number self;
        _account_holder_id := _account_holder_id self;
        _balance := (_balance self + amount)%Q;
        _overdraft_limit := _overdraft_limit self |}).

Definition withdraw (self : t) (amount : Q) : bool * t :=
  if Qle_bool amount 0 then (false, self)
  else if Qltb (_balance self - amount) (- _overdraft_limit self) then
    (false, self)
  else
    (true,
     {| _account_number := _account_number self;
        _account_holder_id := _account_holder_id self;
        _balance := (_balance self - amount)%Q;
        _overdraft_limit := _overdraft_limit self |}).

Definition to_dict (self : t) : gmap string json :=
  <["type" := JStr "checking"]>
    (<["overdraft_limit" := JNum (_overdraft_limit self)]>
      (super_to_dict (_account_number self) (_account_holder_id self)
         (_balance self))).

End CheckingAccount.

(** ** An [Account] object: one of the two concrete classes *)

Inductive Account : Type :=
| Savings (s : SavingsAccount.t)
| Checking (c : CheckingAccount.t).

Module Account.

Definition account_number (self : Account) : string :=
  match self with
  | Savings s => SavingsAccount._account_number s
  | Checking c => CheckingAccount._account_number c
  end.

Definition account_holder_id (self : Account) : string :=
  match self with
  | Savings s => SavingsAccount._account_holder_id s
  | Checking c => CheckingAccount._account_holder_id c
  end.

Definition balance (self : Account) : Q :=
  match self with
  | Savings s => SavingsAccount._balance s
  | Checking c => CheckingAccount._balance c
  end.

(** [isinstance(self, SavingsAccount)] *)
Definition is_savings (self : Account) : bool :=
  match self with Savings _ => true | Checking _ => false end.

Definition deposit (self : Account) (amount : Q) : bool * Account :=
  match self with
  | Savings s => prod_map id Savings (SavingsAccount.deposit s amount)
  | Checking c => prod_map id Checking (CheckingAccount.deposit c amount)
  end.

Definition withdraw (self : Account) (amount : Q) : bool * Account :=
  match self with
  | Savings s => prod_map id Savings (SavingsAccount.withdraw s amount)
  | Checking c => prod_map id Checking (CheckingAccount.withdraw c amount)
  end.

Definition to_dict (self : Account) : gmap string json :=
  match self with
  | Savings s => SavingsAccount.to_dict s
  | Checking c => CheckingAccount.to_dict c
  end.

End Account.

(** ** [class Customer] *)

Module Customer.

Record t : Type := mk {
  _customer_id : string;
  _name : string;
  _address : string;
  _account_numbers : list string
}.

Definition __init__ (customer_id name address : string) : t :=
  {| _customer_id := customer_id;
     _name := name;
     _address := address;
     _account_numbers := [] |}.

Definition customer_id (self : t) : string := _customer_id self.

(** The property returns a copy of the list. *)
Definition account_numbers (self : t) : list string := _account_numbers self.

Definition set_account_numbers (self : t) (l : list string) : t :=
  {| _customer_id := _customer_id self;
     _name := _name self;
     _address := _address self;
     _account_numbers := l |}.

Definition add_account_number (self : t) (account_number : string) : t :=
  if bool_decide (account_number ∈ _account_numbers self) then self
  else set_account_numbers self (_account_numbers self ++ [account_number]).

(** [list.remove]: the first occurrence is taken out.  (Python raises
    [ValueError] when there is none; the only call is guarded by [in].) *)
Fixpoint list_remove (x : string) (l : list string) : list string :=
  match l with
  | [] => []
  | y :: l' => if bool_decide (y = x) then l' else y :: list_remove x l'
  end.

Definition remove_account_number (self : t) (account_number : string) : t :=
  if bool_decide (account_number ∈ _account_numbers self) then
    set_account_numbers self
      (list_remove account_number (_account_numbers self))
  else self.

Definition to_dict (self : t) : gmap string json :=
  <["account_numbers" := JArr (JStr <$> _account_numbers self)]>
    (<["address" := JStr (_address self)]>
      (<["name" := JStr (_name self)]>
        (<["customer_id" := JStr (_customer_id self)]> ∅))).

End Customer.

(** ** [class Bank] *)

(** [str.lower], on strings of ASCII characters: the letters A to Z are
    mapped to a to z and every other character is kept. *)
Definition lower_ascii (c : ascii) : ascii :=
  let n := nat_of_ascii c in
  if (65 <=? n)%nat && (n <=? 90)%nat then ascii_of_nat (n + 32) else c.

Fixpoint lower (s : string) : string :=
  match s with
  | EmptyString => EmptyString
  | String c s' => String (lower_ascii c) (lower s')
  end.

Module Bank.

(** The durable record: the two files, [None] when a file is absent or
    not parsable, and the number of completed saves. *)
Record Disk : Type := mkDisk {
  customer_file : option json;
  account_file : option json;
  saves : nat
}.

Record t : Type := mk {
  _customers : gmap string Customer.t;
  _accounts : gmap string Account;
  disk : Disk
}.

Definition set_customers (self : t) (c : gmap string Customer.t) : t :=
  {| _customers := c; _accounts := _accounts self; disk := disk self |}.

Definition set_accounts (self : t) (a : gmap string Account) : t :=
  {| _customers := _customers self; _accounts := a; disk := disk self |}.

(** *** [_load_data] *)

(** The body of [for acc_num in cust_dict.get('account_numbers', [])]. *)
Fixpoint load_account_numbers (customer : Customer.t) (l : list json)
    : result Customer.t :=
  match l with
  | [] => Return customer
  | j :: l' =>
      acc_num ← as_str j;
      load_account_numbers (Customer.add_account_number customer acc_num) l'
  end.

(** The body of [for cust_id, cust_dict in customer_data.items()].  The
    value under ['account_numbers'] is a list in the model; anything else
    is refused. *)
Definition load_customer (j : json) : result Customer.t :=
  cust_dict ← as_dict TypeError j;
  customer_id ← bind (getitem cust_dict "customer_id") as_str;
  name ← bind (getitem cust_dict "name") as_str;
  address ← bind (getitem cust_dict "address") as_str;
  let customer := Customer.__init__ customer_id name address in
  match default (JArr []) (cust_dict !! "account_numbers") with
  | JArr l => load_account_numbers customer l
  | _ => Raise TypeError
  end.

Definition load_customers (customer_data : gmap string json)
    : result (gmap string Customer.t) :=
  map_fold
    (λ cust_id cust_dict (acc : result (gmap string Customer.t)),
       customers ← acc;
       customer ← load_customer cust_dict;
       Return (<[cust_id := customer]> customers))
    (Return ∅) customer_data.

(** The body of [for acc_num, acc_dict in account_data.items()]:
    [None] is [continue]. *)
Definition load_account (j : json) : result (option Account) :=
  acc_dict ← as_dict AttributeError j;
  let acc_type := acc_dict !! "type" in
  if is_str acc_type "savings" then
    account_number ← bind (getitem acc_dict "account_number") as_str;
    account_holder_id ← bind (getitem acc_dict "account_holder_id") as_str;
    balance ← bind (getitem acc_dict "balance") as_float;
    interest_rate ←
      as_float (default (JNum 0.01) (acc_dict !! "interest_rate"));
    Return (Some (Savings (SavingsAccount.__init__ account_number
                             account_holder_id balance interest_rate)))
  else if is_str acc_type "checking" then
    account_number ← bind (getitem acc_dict "account_number") as_str;
    account_holder_id ← bind (getitem acc_dict "account_holder_id") as_str;
    balance ← bind (getitem acc_dict "balance") as_float;
    overdraft_limit ←
      as_float (default (JNum 0) (acc_dict !! "overdraft_limit"));
    Return (Some (Checking (CheckingAccount.__init__ account_number
                              account_holder_id balance overdraft_limit)))
  else Return None.

Definition load_accounts (account_data : gmap string json)
    : result (gmap string Account) :=
  map_fold
    (λ acc_num acc_dict (acc : result (gmap string Account)),
       accounts ← acc;
       account ← load_account acc_dict;
       match account with
       | Some account => Return (<[acc_num := account]> accounts)
       | None => Return accounts
       end)
    (Return ∅) account_data.

(** [# Fix relationships] *)
Definition fix_relationships (accounts : gmap string Account)
    (customer : Customer.t) : Customer.t :=
  Customer.set_account_numbers customer
    (filter (λ acc, is_Some (accounts !! acc))
       (Customer.account_numbers customer)).

(** [_load_data], on the state of the disk.  A missing or unparsable file
    gives the empty collection; any other exception escapes. *)
Definition _load_data (d : Disk) : result t :=
  customers ←
    match customer_file d with
    | None => Return ∅
    | Some (JObj customer_data) => load_customers customer_data
    | Some _ => Raise AttributeError
    end;
  accounts ←
    match account_file d with
    | None => Return ∅
    | Some (JObj account_data) => load_accounts account_data
    | Some _ => Raise AttributeError
    end;
  Return {| _customers := fix_relationships accounts <$> customers;
            _accounts := accounts;
            disk := d |}.

(** [Bank.__init__] *)
Definition __init__ (d : Disk) : result t := _load_data d.

(** *** [_save_data] *)

Definition _save_data (self : t) : t :=
  {| _customers := _customers self;
     _accounts := _accounts self;
     disk :=
       {| customer_file :=
            Some (JObj ((λ cust, JObj (Customer.to_dict cust))
                          <$> _customers self));
          account_file :=
            Some (JObj ((λ acc, JObj (Account.to_dict acc))
                          <$> _accounts self));
          saves := S (saves (disk self)) |} |}.

(** *** Operations *)

(** Removing the files does not fail in the model. *)
Definition clear_all_data (self : t) : bool * t :=
  (true,
   {| _customers := ∅;
      _accounts := ∅;
      disk := {| customer_file := None;
                 account_file := None;
                 saves := saves (disk self) |} |}).

Definition add_customer (self : t) (customer : Customer.t) : bool * t :=
  if bool_decide (is_Some (_customers self !! Customer.customer_id customer))
  then (false, self)
  else
    (true,
     _save_data
       (set_customers self
          (<[Customer.customer_id customer := customer]> (_customers self)))).

Definition remove_customer (self : t) (customer_id : string) : bool * t :=
  match _customers self !! customer_id with
  | None => (false, self)
  | Some customer =>
      match Customer.account_numbers customer with
      | _ :: _ => (false, self)
      | [] =>
          (true,
           _save_data
             (set_customers self (delete customer_id (_customers self))))
      end
  end.

(** [rnd] is the value [random.randint(100000000000, 999999999999)]
    returns.  The constructors raise no [ValueError], so the two
    [except ValueError] clauses have no counterpart. *)
Definition create_account (rnd : Z) (self : t)
    (customer_id account_type : string) (initial_balance : Q)
    (kwargs : gmap string Q) : option Account * t :=
  match _customers self !! customer_id with
  | None => (None, self)
  | Some customer =>
      let account_number := pretty rnd in
      let account :=
        if String.eqb (lower account_type) "savings" then
          let interest_rate := default 0.01%Q (kwargs !! "interest_rate") in
          Some (Savings (SavingsAccount.__init__ account_number customer_id
                           initial_balance interest_rate))
        else if String.eqb (lower account_type) "checking" then
          let overdraft_limit := default 0%Q (kwargs !! "overdraft_limit") in
          Some (Checking (CheckingAccount.__init__ account_number customer_id
                            initial_balance overdraft_limit))
        else None in
      match account with
      | None => (None, self)
      | Some account =>
          let accounts := <[account_number := account]> (_accounts self) in
          let customer :=
            Customer.add_account_number customer account_number in
          (Some account,
           _save_data
             {| _customers := <[customer_id := customer]> (_customers self);
                _accounts := accounts;
                disk := disk self |})
      end
  end.

Definition deposit (self : t) (account_number : string) (amount : Q)
    : bool * t :=
  match _accounts self !! account_number with
  | None => (false, self)
  | Some account =>
      let '(result, account) := Account.deposit account amount in
      let self :=
        set_accounts self (<[account_number := account]> (_accounts self)) in
      if result then (result, _save_data self) else (result, self)
  end.

Definition withdraw (self : t) (account_number : string) (amount : Q)
    : bool * t :=
  match _accounts self !! account_number with
  | None => (false, self)
  | Some account =>
      let '(result, account) := Account.withdraw account amount in
      let self :=
        set_accounts self (<[account_number := account]> (_accounts self)) in
      if result then (result, _save_data self) else (result, self)
  end.

(** [from_account] and [to_account] are references: they are the same
    object exactly when the two numbers are the same key. *)
Definition transfer_funds (self : t) (from_acc_num to_acc_num : string)
    (amount : Q) : bool * t :=
  match _accounts self !! from_acc_num, _accounts self !! to_acc_num with
  | Some from_account, Some to_account =>
      if Qle_bool amount 0 then (false, self)
      else
        let '(withdrawn, from_account) :=
          Account.withdraw from_account amount in
        let self :=
          set_accounts self
            (<[from_acc_num := from_account]> (_accounts self)) in
        if negb withdrawn then (false, self)
        else
          let to_account :=
            if bool_decide (to_acc_num = from_acc_num) then from_account
            else to_account in
          let '(deposited, to_account) :=
            Account.deposit to_account amount in
          let self :=
            set_accounts self
              (<[to_acc_num := to_account]> (_accounts self)) in
          if negb deposited then
            let from_account :=
              if bool_decide (to_acc_num = from_acc_num) then to_account
              else from_account in
            let '(_, from_account) := Account.deposit from_account amount in
            (false,
             set_accounts self
               (<[from_acc_num := from_account]> (_accounts self)))
          else (true, _save_data self)
  | _, _ => (false, self)
  end.

Definition get_customer_accounts (self : t) (customer_id : string)
    : list Account :=
  match _customers self !! customer_id with
  | None => []
  | Some customer =>
      omap (λ acc_num, _accounts self !! acc_num)
        (Customer.account_numbers customer)
  end.

Definition get_all_customers (self : t) : list Customer.t :=
  (map_to_list (_customers self)).*2.

Definition get_all_accounts (self : t) : list Account :=
  (map_to_list (_accounts self)).*2.

(** The body of [for account in self._accounts.values()], on the pair of
    the account dict and the flag [changed]. *)
Definition apply_all_interest_step (acc_num : string) (account : Account)
    (st : gmap string Account * bool) : gmap string Account * bool :=
  match account with
  | Savings s =>
      (<[acc_num := Savings (SavingsAccount.apply_interest s)]> st.1, true)
  | Checking _ => st
  end.

Definition apply_all_interest (self : t) : t :=
  let '(accounts, changed) :=
    map_fold apply_all_interest_step (_accounts self, false)
      (_accounts self) in
  let self := set_accounts self accounts in
  if changed then _save_data self else self.

End Bank.

(** ** Sequences of calls on one account *)

(** A call of a method of a savings account, and a call of a method of a
    checking account. *)
Inductive savings_call : Type :=
| SDeposit (amount : Q)
| SWithdraw (amount : Q)
| SApplyInterest.

Inductive checking_call : Type :=
| CDeposit (amount : Q)
| CWithdraw (amount : Q).

(** One call: whether it succeeded, and the object after it.
    [apply_interest] returns nothing and cannot fail. *)
Definition savings_do (self : SavingsAccount.t) (c : savings_call)
    : bool * SavingsAccount.t :=
  match c with
  | SDeposit amount => SavingsAccount.deposit self amount
  | SWithdraw amount => SavingsAccount.withdraw self amount
  | SApplyInterest => (true, SavingsAccount.apply_interest self)
  end.

Definition checking_do (self : CheckingAccount.t) (c : checking_call)
    : bool * CheckingAccount.t :=
  match c with
  | CDeposit amount => CheckingAccount.deposit self amount
  | CWithdraw amount => CheckingAccount.withdraw self amount
  end.

(** The calls of a list made in order on one object: the results of the
    calls and the object after the last one. *)
Fixpoint savings_run (self : SavingsAccount.t) (cs : list savings_call)
    : list bool * SavingsAccount.t :=
  match cs with
  | [] => ([], self)
  | c :: cs' =>
      let '(ok, self') := savings_do self c in
      let '(oks, self'') := savings_run self' cs' in
      (ok :: oks, self'')
  end.

Fixpoint checking_run (self : CheckingAccount.t) (cs : list checking_call)
    : list bool * CheckingAccount.t :=
  match cs with
  | [] => ([], self)
  | c :: cs' =>
      let '(ok, self') := checking_do self c in
      let '(oks, self'') := checking_run self' cs' in
      (ok :: oks, self'')
  end.

(** ** Class invariants *)

(** What the constructors establish and every method keeps: a customer's
    account numbers are pairwise distinct, a rate and a limit are not
    negative. *)
Definition Customer_inv (c : Customer.t) : Prop :=
  NoDup (Customer._account_numbers c).

Definition Account_inv (a : Account) : Prop :=
  match a with
  | Savings s => (0 <= SavingsAccount._interest_rate s)%Q
  | Checking c => (0 <= CheckingAccount._overdraft_limit c)%Q
  end.

Definition Bank_inv (self : Bank.t) : Prop :=
  map_Forall (λ _, Customer_inv) (Bank._customers self) ∧
  map_Forall (λ _, Account_inv) (Bank._accounts self).

(** Every customer is stored under its own id, as [add_customer] does. *)
Definition keys_match (self : Bank.t) : Prop :=
  map_Forall (λ cust_id cust, Customer.customer_id cust = cust_id)
    (Bank._customers self).

(** The states of a bank: what [Bank.__init__] builds from some disk, and
    what the operations make of such a state. *)
Inductive reachable : Bank.t → Prop :=
| reachable_init d self :
    Bank.__init__ d = Return self → reachable self
| reachable_clear_all_data self :
    reachable self → reachable (Bank.clear_all_data self).2
| reachable_add_customer self customer :
    reachable self → Customer_inv customer →
    reachable (Bank.add_customer self customer).2
| reachable_remove_customer self customer_id :
    reachable self → reachable (Bank.remove_customer self customer_id).2
| reachable_create_account rnd self customer_id account_type initial_balance
    kwargs :
    reachable self →
    reachable (Bank.create_account rnd self customer_id account_type
                 initial_balance kwargs).2
| reachable_deposit self account_number amount :
    reachable self → reachable (Bank.deposit self account_number amount).2
| reachable_withdraw self account_number amount :
    reachable self → reachable (Bank.withdraw self account_number amount).2
| reachable_transfer_funds self from_acc_num to_acc_num amount :
    reachable self →
    reachable (Bank.transfer_funds self from_acc_num to_acc_num amount).2
| reachable_apply_all_interest self :
    reachable self → reachable (Bank.apply_all_interest self).

(** What [apply_all_interest] does to one account. *)
Definition accrue (a : Account) : Account :=
  match a with
  | Savings s => Savings (SavingsAccount.apply_interest s)
  | Checking c => Checking c
  end.

(** The same, as an update: the new state of a savings account, nothing
    for a checking account. *)
Definition accrued (a : Account) : option Account :=
  match a with
  | Savings s => Some (Savings (SavingsAccount.apply_interest s))
  | Checking _ => None
  end.

(** ** Example states *)

Definition empty_disk : Bank.Disk :=
  {| Bank.customer_file := None; Bank.account_file := None; Bank.saves := 0 |}.

(** The bank a first start gives: no file on the disk. *)
Definition empty_bank : Bank.t :=
  {| Bank._customers := ∅; Bank._accounts := ∅; Bank.disk := empty_disk |}.

(** Customer C1 is added to the empty bank. *)
Definition bank_alice : Bank.t :=
  (Bank.add_customer empty_bank (Customer.__init__ "C1" "Alice" "1 Main St")).2.

(** Then a savings account with balance 100.0 and rate 0.05 is created for
    C1; the random draw is 100000000000. *)
Definition bank_alice_savings : Bank.t :=
  (Bank.create_account 100000000000 bank_alice "C1" "savings" 100
     {["interest_rate" := 0.05%Q]}).2.

(** Then a checking account with balance 50.0 and overdraft limit 20.0 is
    created for C1; the random draw is 200000000000. *)
Definition bank_two_accounts : Bank.t :=
  (Bank.create_account 200000000000 bank_alice_savings "C1" "checking" 50
     {["overdraft_limit" := 20%Q]}).2.

(** ** Sequences of calls on the bank *)

(** A call of an operation of the bank.  The customer of [AddCustomer] is
    built from three strings, as the one caller of [add_customer],
    [BankingApp.add_customer], builds it. *)
Inductive bank_call : Type :=
| AddCustomer (customer_id name address : string)
| RemoveCustomer (customer_id : string)
| CreateAccount (rnd : Z) (customer_id account_type : string)
    (initial_balance : Q) (kwargs : gmap string Q)
| Deposit (account_number : string) (amount : Q)
| Withdraw (account_number : string) (amount : Q)
| TransferFunds (from_acc_num to_acc_num : string) (amount : Q)
| ApplyAllInterest
| ClearAllData.

(** The bank after one call. *)
Definition bank_do (self : Bank.t) (c : bank_call) : Bank.t :=
  match c with
  | AddCustomer customer_id name address =>
      (Bank.add_customer self (Customer.__init__ customer_id name address)).2
  | RemoveCustomer customer_id => (Bank.remove_customer self customer_id).2
  | CreateAccount rnd customer_id account_type initial_balance kwargs =>
      (Bank.create_account rnd self customer_id account_type initial_balance
         kwargs).2
  | Deposit account_number amount =>
      (Bank.deposit self account_number amount).2
  | Withdraw account_number amount =>
      (Bank.withdraw self account_number amount).2
  | TransferFunds from_acc_num to_acc_num amount =>
      (Bank.transfer_funds self from_acc_num to_acc_num amount).2
  | ApplyAllInterest => Bank.apply_all_interest self
  | ClearAllData => (Bank.clear_all_data self).2
  end.

(** The bank after the calls of a list, made in order. *)
Definition bank_run (self : Bank.t) (cs : list bank_call) : Bank.t :=
  foldl bank_do self cs.

Definition is_clear (c : bank_call) : bool :=
  match c with ClearAllData => true | _ => false end.

(** ** Properties of a state of the bank *)

(** Every account number a customer lists has an account. *)
Definition refs_ok (self : Bank.t) : Prop :=
  ∀ k c n,
    Bank._customers self !! k = Some c →
    n ∈ Customer.account_numbers c →
    is_Some (Bank._accounts self !! n).

(** Every account is stored under its own number, and its holder is a
    customer of the bank who lists the account. *)
Definition owned (self : Bank.t) : Prop :=
  ∀ k a,
    Bank._accounts self !! k = Some a →
    Account.account_number a = k
    ∧ ∃ c, Bank._customers self !! Account.account_holder_id a = Some c
           ∧ k ∈ Customer.account_numbers c.

(** The two files hold what [_save_data] writes for the customers and the
    accounts in memory. *)
Definition on_disk (self : Bank.t) : Prop :=
  Bank.customer_file (Bank.disk self)
  = Bank.customer_file (Bank.disk (Bank._save_data self))
  ∧ Bank.account_file (Bank.disk self)
    = Bank.account_file (Bank.disk (Bank._save_data self)).

(** Two accounts that differ in the balance at most, the class invariant
    kept. *)
Definition same_account (a a' : Account) : Prop :=
  Account.account_number a' = Account.account_number a
  ∧ Account.account_holder_id a' = Account.account_holder_id a
  ∧ Account.is_savings a' = Account.is_savings a
  ∧ (Account_inv a → Account_inv a').

(** Two states of the bank with the same customers and the same account
    numbers, whose accounts differ in the balance at most. *)
Definition balances_only (self self' : Bank.t) : Prop :=
  Bank._customers self' = Bank._customers self
  ∧ ∀ k, option_Forall2 same_account
           (Bank._accounts self !! k) (Bank._accounts self' !! k).

(** The calls that move money. *)
Definition is_money_call (c : bank_call) : bool :=
  match c with
  | Deposit _ _ | Withdraw _ _ | TransferFunds _ _ _ | ApplyAllInterest => true
  | _ => false
  end.

(** An exception. *)
Definition raises {A : Type} (r : result A) : Prop := ∃ e, r = Raise e.

(** What one entry of a file gives when it is read without an exception:
    the customer, and the account unless the entry is skipped. *)
Definition parse_customer (j : json) : option Customer.t :=
  match Bank.load_customer j with
  | Return c => Some c
  | Raise _ => None
  end.

Definition parse_account (j : json) : option Account :=
  match Bank.load_account j with
  | Return a => a
  | Raise _ => None
  end.

(** * Properties *)

(** ** Comparisons *)

Lemma Qltb_lt (x y : Q) : Qltb x y = true ↔ (x < y)%Q.
Proof.
  unfold Qltb. rewrite negb_true_iff, <- not_true_iff_false, Qle_bool_iff.
  split; [apply Qnot_le_lt | apply Qlt_not_le].
Qed.

Lemma Qltb_ge (x y : Q) : Qltb x y = false ↔ (y <= x)%Q.
Proof. unfold Qltb. by rewrite negb_false_iff, Qle_bool_iff. Qed.

Lemma Qle_bool_gt (x y : Q) : Qle_bool x y = false ↔ (y < x)%Q.
Proof.
  rewrite <- not_true_iff_false, Qle_bool_iff.
  split; [apply Qnot_le_lt | apply Qlt_not_le].
Qed.

(** Turns the boolean tests of the code, as hypotheses, into order facts. *)
Ltac order_facts :=
  repeat match goal with
  | H : Qle_bool _ _ = true |- _ => apply Qle_bool_iff in H
  | H : Qle_bool _ _ = false |- _ => apply Qle_bool_gt in H
  | H : Qltb _ _ = true |- _ => apply Qltb_lt in H
  | H : Qltb _ _ = false |- _ => apply Qltb_ge in H
  | H : _ || _ = false |- _ => apply orb_false_iff in H; destruct H
  | H : _ || _ = true |- _ => apply orb_true_iff in H
  end.

(** ** The methods of an account *)

Section account_methods.
Local Open Scope Q_scope.

Lemma savings_deposit_rejects self amount :
  (SavingsAccount.deposit self amount).1 = false ↔ amount <= 0.
Proof.
  unfold SavingsAccount.deposit.
  destruct (Qle_bool amount 0) eqn:E; simpl; order_facts;
    [tauto | split; [done | intros; lra]].
Qed.

Lemma checking_deposit_rejects self amount :
  (CheckingAccount.deposit self amount).1 = false ↔ amount <= 0.
Proof.
  unfold CheckingAccount.deposit.
  destruct (Qle_bool amount 0) eqn:E; simpl; order_facts;
    [tauto | split; [done | intros; lra]].
Qed.

Lemma savings_deposit_rejected self amount :
  (SavingsAccount.deposit self amount).1 = false →
  (SavingsAccount.deposit self amount).2 = self.
Proof. unfold SavingsAccount.deposit. by case (Qle_bool amount 0). Qed.

Lemma savings_withdraw_rejected self amount :
  (SavingsAccount.withdraw self amount).1 = false →
  (SavingsAccount.withdraw self amount).2 = self.
Proof. unfold SavingsAccount.withdraw. by case (_ || _). Qed.

Lemma checking_deposit_rejected self amount :
  (CheckingAccount.deposit self amount).1 = false →
  (CheckingAccount.deposit self amount).2 = self.
Proof. unfold CheckingAccount.deposit. by case (Qle_bool amount 0). Qed.

Lemma checking_withdraw_rejected self amount :
  (CheckingAccount.withdraw self amount).1 = false →
  (CheckingAccount.withdraw self amount).2 = self.
Proof.
  unfold CheckingAccount.withdraw.
  case (Qle_bool amount 0); [done |]. by case (Qltb _ _).
Qed.

Lemma account_deposit_rejected self amount :
  (Account.deposit self amount).1 = false →
  (Account.deposit self amount).2 = self.
Proof.
  destruct self as [s | c]; simpl; intros H; f_equal.
  - by apply savings_deposit_rejected.
  - by apply checking_deposit_rejected.
Qed.

Lemma account_withdraw_rejected self amount :
  (Account.withdraw self amount).1 = false →
  (Account.withdraw self amount).2 = self.
Proof.
  destruct self as [s | c]; simpl; intros H; f_equal.
  - by apply savings_withdraw_rejected.
  - by apply checking_withdraw_rejected.
Qed.

Lemma account_deposit_rejects self amount :
  (Account.deposit self amount).1 = false ↔ amount <= 0.
Proof.
  destruct self as [s | c]; simpl.
  - apply savings_deposit_rejects.
  - apply checking_deposit_rejects.
Qed.

Lemma account_deposit_accepted self amount :
  (Account.deposit self amount).1 = true →
  Account.balance (Account.deposit self amount).2
  = Account.balance self + amount.
Proof.
  destruct self as [s | c]; simpl.
  - unfold SavingsAccount.deposit. by case (Qle_bool amount 0).
  - unfold CheckingAccount.deposit. by case (Qle_bool amount 0).
Qed.

Lemma account_withdraw_accepted self amount :
  (Account.withdraw self amount).1 = true →
  Account.balance (Account.withdraw self amount).2
  = Account.balance self - amount.
Proof.
  destruct self as [s | c]; simpl.
  - unfold SavingsAccount.withdraw. by case (_ || _).
  - unfold CheckingAccount.withdraw.
    case (Qle_bool amount 0); [done |]. by case (Qltb _ _).
Qed.

(** The methods keep the class invariant. *)
Lemma account_deposit_inv self amount :
  Account_inv self → Account_inv (Account.deposit self amount).2.
Proof.
  destruct self as [s | c]; simpl.
  - unfold SavingsAccount.deposit. by case (Qle_bool amount 0).
  - unfold CheckingAccount.deposit. by case (Qle_bool amount 0).
Qed.

Lemma account_withdraw_inv self amount :
  Account_inv self → Account_inv (Account.withdraw self amount).2.
Proof.
  destruct self as [s | c]; simpl.
  - unfold SavingsAccount.withdraw. by case (_ || _).
  - unfold CheckingAccount.withdraw.
    case (Qle_bool amount 0); [done |]. by case (Qltb _ _).
Qed.

Lemma accrue_inv self : Account_inv self → Account_inv (accrue self).
Proof. by destruct self. Qed.

Lemma savings_init_inv n h b r :
  Account_inv (Savings (SavingsAccount.__init__ n h b r)).
Proof.
  simpl. destruct (Qle_bool 0 r) eqn:E; order_facts; [done | lra].
Qed.

Lemma checking_init_inv n h b l :
  Account_inv (Checking (CheckingAccount.__init__ n h b l)).
Proof.
  simpl. destruct (Qle_bool 0 l) eqn:E; order_facts; [done | lra].
Qed.

End account_methods.

(** ** Invalid rates and limits: constructor against setter *)

Section clamping.
Local Open Scope Q_scope.

(** C6.  A negative interest rate or overdraft limit given to the
    constructor is replaced by the default of the class (0.01, 0.0) and
    the object is built; the same value assigned through the setter raises
    [ValueError] and the object stays as it was. *)
Theorem negative_parameter_clamped_or_rejected
    (account_number account_holder_id : string) (initial_balance value : Q) :
  value < 0 →
  SavingsAccount._interest_rate
    (SavingsAccount.__init__ account_number account_holder_id
       initial_balance value) = 0.01
  ∧ CheckingAccount._overdraft_limit
      (CheckingAccount.__init__ account_number account_holder_id
         initial_balance value) = 0
  ∧ (∀ self : SavingsAccount.t, ∃ msg,
       SavingsAccount.interest_rate_setter self value
       = (Raise (ValueError msg), self))
  ∧ (∀ self : CheckingAccount.t, ∃ msg,
       CheckingAccount.overdraft_limit_setter self value
       = (Raise (ValueError msg), self)).
Proof.
  intros Hneg.
  assert (Qle_bool 0 value = false) as Hle by (apply Qle_bool_gt; lra).
  assert (Qltb value 0 = true) as Hlt by (by apply Qltb_lt).
  unfold SavingsAccount.interest_rate_setter,
    CheckingAccount.overdraft_limit_setter.
  simpl. rewrite Hle, Hlt. repeat split; eauto.
Qed.

Lemma negative_parameter_witness :
  SavingsAccount._interest_rate
    (SavingsAccount.__init__ "100000000000" "C1" 100 (-1)) = 0.01
  ∧ CheckingAccount._overdraft_limit
      (CheckingAccount.__init__ "100000000000" "C1" 100 (-1)) = 0
  ∧ (∀ self : SavingsAccount.t, ∃ msg,
       SavingsAccount.interest_rate_setter self (-1)
       = (Raise (ValueError msg), self))
  ∧ (∀ self : CheckingAccount.t, ∃ msg,
       CheckingAccount.overdraft_limit_setter self (-1)
       = (Raise (ValueError msg), self)).
Proof.
  apply (negative_parameter_clamped_or_rejected "100000000000" "C1" 100 (-1)).
  reflexivity.
Defined.

End clamping.

(** ** The balance invariants *)

Section balance_invariants.
Local Open Scope Q_scope.

Lemma savings_do_nonneg self c :
  0 <= SavingsAccount._interest_rate self →
  0 <= SavingsAccount._balance self →
  0 <= SavingsAccount._interest_rate (savings_do self c).2
  ∧ 0 <= SavingsAccount._balance (savings_do self c).2.
Proof.
  intros Hr Hb. destruct c as [amount | amount |]; simpl.
  - unfold SavingsAccount.deposit.
    destruct (Qle_bool amount 0) eqn:E; simpl; order_facts;
      (split; [done | lra]).
  - unfold SavingsAccount.withdraw.
    destruct (_ || _) eqn:E; simpl; order_facts; (split; [done | lra]).
  - split; [done |].
    pose proof (Qmult_le_0_compat _ _ Hb Hr). lra.
Qed.

Lemma savings_run_nonneg cs : ∀ self,
  0 <= SavingsAccount._interest_rate self →
  0 <= SavingsAccount._balance self →
  0 <= SavingsAccount._balance (savings_run self cs).2.
Proof.
  induction cs as [| c cs IH]; intros self Hr Hb; simpl; [done |].
  destruct (savings_do_nonneg self c Hr Hb) as [Hr' Hb'].
  destruct (savings_do self c) as [ok self'].
  specialize (IH self' Hr' Hb').
  by destruct (savings_run self' cs).
Qed.




Lemma checking_do_floor self c :
  - CheckingAccount._overdraft_limit self <= CheckingAccount._balance self →
  CheckingAccount._overdraft_limit (checking_do self c).2
  = CheckingAccount._overdraft_limit self
  ∧ - CheckingAccount._overdraft_limit self
    <= CheckingAccount._balance (checking_do self c).2.
Proof.
  intros Hb. destruct c as [amount | amount]; simpl.
  - unfold CheckingAccount.deposit.
    destruct (Qle_bool amount 0) eqn:E; simpl; order_facts;
      (split; [done | lra]).
  - unfold CheckingAccount.withdraw.
    destruct (Qle_bool amount 0) eqn:E; simpl; [done |].
    destruct (Qltb _ _) eqn:E'; simpl; order_facts; (split; [done | lra]).
Qed.

Lemma checking_run_floor cs : ∀ self,
  - CheckingAccount._overdraft_limit self <= CheckingAccount._balance self →
  CheckingAccount._overdraft_limit (checking_run self cs).2
  = CheckingAccount._overdraft_limit self
  ∧ - CheckingAccount._overdraft_limit self
    <= CheckingAccount._balance (checking_run self cs).2.
Proof.
  induction cs as [| c cs IH]; intros self Hb; simpl; [done |].
  destruct (checking_do_floor self c Hb) as [Hl' Hb'].
  destruct (checking_do self c) as [ok self']. simpl in *.
  rewrite <- Hl' in Hb'. specialize (IH self' Hb').
  destruct (checking_run self' cs). simpl in *. by rewrite <- Hl'.
Qed.




End balance_invariants.

(** ** Transfers *)

Section transfers.
Local Open Scope Q_scope.

Lemma set_accounts_id (self : Bank.t) (k : string) (a : Account) :
  Bank._accounts self !! k = Some a →
  Bank.set_accounts self (<[k := a]> (Bank._accounts self)) = self.
Proof. intros H. destruct self. unfold Bank.set_accounts. simpl in *.
  by rewrite insert_id. Qed.

(** The deposit leg of a transfer cannot fail: the amount is positive. *)
Lemma deposit_leg_accepted (a : Account) (amount : Q) :
  Qle_bool amount 0 = false → (Account.deposit a amount).1 = true.
Proof.
  intros Hpos. destruct (Account.deposit a amount).1 eqn:E; [done |].
  apply account_deposit_rejects in E. order_facts. lra.
Qed.

(** What [transfer_funds] computes, by cases. *)
Lemma transfer_funds_unfold (self : Bank.t) (A B : string) (amount : Q)
    (a b : Account) :
  Bank._accounts self !! A = Some a →
  Bank._accounts self !! B = Some b →
  Bank.transfer_funds self A B amount =
    if Qle_bool amount 0 then (false, self)
    else if negb (Account.withdraw a amount).1 then (false, self)
    else
      let a' := (Account.withdraw a amount).2 in
      let b' :=
        (Account.deposit (if bool_decide (B = A) then a' else b) amount).2 in
      (true,
       Bank._save_data
         (Bank.set_accounts self
            (<[B := b']> (<[A := a']> (Bank._accounts self))))).
Proof.
  intros HA HB. unfold Bank.transfer_funds. rewrite HA, HB.
  destruct (Qle_bool amount 0) eqn:Hpos; [done |].
  pose proof (account_withdraw_rejected a amount) as Hrej.
  destruct (Account.withdraw a amount) as [w a'] eqn:Hw. simpl in *.
  destruct w; simpl.
  - pose proof (deposit_leg_accepted
                  (if bool_decide (B = A) then a' else b) amount Hpos) as Hd.
    destruct (Account.deposit _ amount) as [d b']. simpl in *.
    by rewrite Hd.
  - rewrite Hrej by done. by rewrite set_accounts_id.
Qed.

(** C1, the claim as stated, fails when the two numbers are the same: on a
    savings account with the balance 100.0, a transfer of 30.0 from the
    account to itself succeeds, and the balance afterwards is not 70.0. *)
Lemma transfer_funds_counterexample :
  let A := "100000000000" in
  let r := Bank.transfer_funds bank_alice_savings A A 30 in
  Account.balance <$> Bank._accounts bank_alice_savings !! A = Some 100
  ∧ r.1 = true
  ∧ ∃ q, Account.balance <$> Bank._accounts r.2 !! A = Some q
         ∧ ¬ q == 100 - 30.
Proof.
  split; [reflexivity |]. split; [reflexivity |].
  eexists. split; [vm_compute; reflexivity |].
  intros H. vm_compute in H. discriminate.
Qed.

(** C1, amended.  For account numbers A and B present in the store: if
    [transfer_funds] returns success and A and B are different numbers,
    the balance of A afterwards is its balance before minus the amount and
    the balance of B afterwards is its balance before plus the amount; if
    it returns failure (A and B different or not), the bank is as it was
    before the call. *)
Theorem transfer_funds_balances (self : Bank.t) (A B : string) (amount : Q)
    (a b : Account) :
  Bank._accounts self !! A = Some a →
  Bank._accounts self !! B = Some b →
  let r := Bank.transfer_funds self A B amount in
  (r.1 = true → A ≠ B →
     Account.balance <$> Bank._accounts r.2 !! A
     = Some (Account.balance a - amount)
     ∧ Account.balance <$> Bank._accounts r.2 !! B
       = Some (Account.balance b + amount))
  ∧ (r.1 = false → r.2 = self).
Proof.
  intros HA HB r. subst r. rewrite (transfer_funds_unfold _ _ _ _ a b HA HB).
  destruct (Qle_bool amount 0) eqn:Hpos; [by split |].
  destruct (Account.withdraw a amount).1 eqn:Hw; simpl; [| by split].
  split; [| done]. intros _ Hne.
  rewrite bool_decide_eq_false_2 by done.
  rewrite lookup_insert_ne, lookup_insert_eq, lookup_insert_eq by done.
  simpl. split; f_equal.
  - by apply account_withdraw_accepted.
  - apply account_deposit_accepted. by apply deposit_leg_accepted.
Qed.

Lemma transfer_funds_balances_witness :
  let r := Bank.transfer_funds bank_two_accounts
             "100000000000" "200000000000" 30 in
  Account.balance <$> Bank._accounts r.2 !! "100000000000" = Some (100 - 30)
  ∧ Account.balance <$> Bank._accounts r.2 !! "200000000000" = Some (50 + 30).
Proof.
  destruct (transfer_funds_balances bank_two_accounts
              "100000000000" "200000000000" 30
              (Savings (SavingsAccount.__init__ "100000000000" "C1" 100 0.05))
              (Checking (CheckingAccount.__init__ "200000000000" "C1" 50 20)))
    as [Hsuccess _]; [reflexivity | reflexivity |].
  apply Hsuccess; [reflexivity | discriminate].
Defined.

(** C9.  There is a transfer from an account to itself that succeeds and
    leaves the balance of the account equal to what it was.  Whenever the
    account exists, the amount is positive and the account's own
    [withdraw] accepts the amount, the deposit goes to the same, already
    debited, object and the transfer returns success. *)
Theorem transfer_funds_same_account :
  (∃ (self : Bank.t) (A : string) (amount : Q) (a a' : Account),
     Bank._accounts self !! A = Some a
     ∧ (Bank.transfer_funds self A A amount).1 = true
     ∧ Bank._accounts (Bank.transfer_funds self A A amount).2 !! A = Some a'
     ∧ Account.balance a' == Account.balance a)
  ∧ (∀ (self : Bank.t) (A : string) (amount : Q) (a : Account),
       Bank._accounts self !! A = Some a →
       0 < amount →
       (Account.withdraw a amount).1 = true →
       (Bank.transfer_funds self A A amount).1 = true
       ∧ Bank._accounts (Bank.transfer_funds self A A amount).2 !! A
         = Some (Account.deposit (Account.withdraw a amount).2 amount).2).
Proof.
  split.
  - exists bank_alice_savings, "100000000000", 30.
    do 2 eexists. split; [reflexivity |]. split; [reflexivity |].
    split; [vm_compute; reflexivity |]. reflexivity.
  - intros self A amount a HA Hpos Hw.
    rewrite (transfer_funds_unfold _ _ _ _ a a HA HA).
    assert (Qle_bool amount 0 = false) as -> by (apply Qle_bool_gt; lra).
    rewrite Hw. simpl. split; [done |].
    by rewrite bool_decide_eq_true_2, lookup_insert_eq.
Qed.

Lemma transfer_funds_same_account_witness :
  (Bank.transfer_funds bank_alice_savings
     "100000000000" "100000000000" 30).1 = true
  ∧ Bank._accounts
      (Bank.transfer_funds bank_alice_savings
         "100000000000" "100000000000" 30).2 !! "100000000000"
    = Some (Account.deposit
              (Account.withdraw
                 (Savings
                    (SavingsAccount.__init__ "100000000000" "C1" 100 0.05))
                 30).2 30).2.
Proof.
  apply (proj2 transfer_funds_same_account bank_alice_savings
           "100000000000" 30
           (Savings (SavingsAccount.__init__ "100000000000" "C1" 100 0.05)));
    reflexivity.
Defined.

End transfers.

(** ** Customers *)

Section customers.

Lemma elem_of_get_all_customers (self : Bank.t) (c : Customer.t) :
  c ∈ Bank.get_all_customers self
  ↔ ∃ k, Bank._customers self !! k = Some c.
Proof.
  unfold Bank.get_all_customers. rewrite list_elem_of_fmap. split.
  - intros [[k c'] [-> Hin]]. exists k. by apply elem_of_map_to_list.
  - intros [k Hk]. exists (k, c). split; [done |].
    by apply elem_of_map_to_list.
Qed.

(** C7.  [remove_customer] returns success exactly when the id is in the
    store and the customer's list of account numbers is empty.  On success
    the store has no entry for the id, the listing of customers shows
    exactly the customers stored under the other ids (so, when every
    customer is stored under its own id, no customer with that id), and
    the state is saved; on failure the bank is as it was. *)
Theorem remove_customer_spec (self : Bank.t) (customer_id : string) :
  let r := Bank.remove_customer self customer_id in
  (r.1 = true
   ↔ ∃ c, Bank._customers self !! customer_id = Some c
          ∧ Customer.account_numbers c = [])
  ∧ (r.1 = true →
       r.2 = Bank._save_data
               (Bank.set_customers self
                  (delete customer_id (Bank._customers self)))
       ∧ Bank._customers r.2 !! customer_id = None
       ∧ (∀ c, c ∈ Bank.get_all_customers r.2
               ↔ ∃ k, k ≠ customer_id ∧ Bank._customers self !! k = Some c)
       ∧ (keys_match self →
          ∀ c, c ∈ Bank.get_all_customers r.2 →
               Customer.customer_id c ≠ customer_id))
  ∧ (r.1 = false → r.2 = self).
Proof.
  unfold Bank.remove_customer.
  destruct (Bank._customers self !! customer_id) as [c |] eqn:Hc; simpl.
  - destruct (Customer.account_numbers c) as [| n l] eqn:Hl; simpl.
    + split; [split; [eauto | done] |]. split; [| done]. intros _.
      assert (∀ c', c' ∈ Bank.get_all_customers
                      (Bank._save_data
                         (Bank.set_customers self
                            (delete customer_id (Bank._customers self))))
                    ↔ ∃ k, k ≠ customer_id
                           ∧ Bank._customers self !! k = Some c') as Hlist.
      { intros c'. rewrite elem_of_get_all_customers. simpl.
        split; intros [k Hk]; exists k.
        - apply lookup_delete_Some in Hk as [Hne Hk]. by split.
        - apply lookup_delete_Some. destruct Hk as [Hne Hk]. by split. }
      split; [done |]. split; [apply lookup_delete_eq |].
      split; [done |]. intros Hkeys c' [k [Hne Hk]]%Hlist.
      by rewrite (Hkeys k c' Hk).
    + split; [| done]. split; [done |].
      intros [c' [[= <-] Hnil]]. congruence.
  - split; [| done]. split; [done |]. by intros [c' [? _]].
Qed.

Lemma remove_customer_witness :
  let r := Bank.remove_customer bank_alice "C1" in
  r.1 = true
  ∧ Bank._customers r.2 !! "C1" = None
  ∧ (∀ c, c ∈ Bank.get_all_customers r.2 → Customer.customer_id c ≠ "C1").
Proof.
  destruct (remove_customer_spec bank_alice "C1") as (_ & Hsuccess & _).
  destruct Hsuccess as (_ & Hgone & _ & Hlisting); [reflexivity |].
  split; [reflexivity |]. split; [exact Hgone |]. apply Hlisting.
  intros k c Hk.
  change (Bank._customers bank_alice)
    with ({["C1" := Customer.__init__ "C1" "Alice" "1 Main St"]}
          : gmap string Customer.t) in Hk.
  by apply lookup_singleton_Some in Hk as [<- <-].
Defined.

End customers.

(** ** Creating accounts *)

Section creating_accounts.
Local Open Scope Q_scope.

(** C10.  [create_account] does not look at the initial balance: for a
    known customer id and a recognized kind it succeeds whatever the
    initial balance is, and the account it returns and stores under the
    drawn number has that balance; so a negative initial balance gives a
    savings account with a balance below 0, and an initial balance below
    the negation of the overdraft limit gives a checking account with a
    balance below the negation of its limit. *)
Theorem create_account_any_initial_balance (rnd : Z) (self : Bank.t)
    (customer_id account_type : string) (initial_balance : Q)
    (kwargs : gmap string Q) (customer : Customer.t) :
  Bank._customers self !! customer_id = Some customer →
  lower account_type = "savings" ∨ lower account_type = "checking" →
  let r := Bank.create_account rnd self customer_id account_type
             initial_balance kwargs in
  ∃ account,
    r.1 = Some account
    ∧ Bank._accounts r.2 !! pretty rnd = Some account
    ∧ Account.balance account = initial_balance
    ∧ (lower account_type = "savings" →
         ∃ s, account = Savings s
              ∧ (initial_balance < 0 → SavingsAccount._balance s < 0))
    ∧ (lower account_type = "checking" →
         ∃ c, account = Checking c
              ∧ (initial_balance < - CheckingAccount._overdraft_limit c →
                 CheckingAccount._balance c
                 < - CheckingAccount._overdraft_limit c)).
Proof.
  intros Hc Hkind. unfold Bank.create_account. rewrite Hc.
  destruct Hkind as [-> | ->]; simpl.
  - eexists. split; [done |]. split; [apply lookup_insert_eq |].
    split; [done |]. split; [eauto | done].
  - eexists. split; [done |]. split; [apply lookup_insert_eq |].
    split; [done |]. split; [done | eauto].
Qed.

Lemma create_account_any_initial_balance_witness :
  let r := Bank.create_account 300000000000 bank_alice "C1" "Savings"
             (-5) ∅ in
  ∃ account s,
    r.1 = Some account
    ∧ Bank._accounts r.2 !! "300000000000" = Some account
    ∧ account = Savings s
    ∧ SavingsAccount._balance s < 0.
Proof.
  destruct (create_account_any_initial_balance 300000000000 bank_alice "C1"
              "Savings" (-5) ∅ (Customer.__init__ "C1" "Alice" "1 Main St"))
    as (account & Hret & Hstored & _ & Hsavings & _);
    [reflexivity | left; reflexivity |].
  destruct Hsavings as (s & Hs & Hneg); [reflexivity |].
  exists account, s. split; [exact Hret |]. split; [exact Hstored |].
  split; [exact Hs |]. apply Hneg. reflexivity.
Defined.

(** C5: the code at a colliding draw.  The bank holds the savings account
    100000000000 of C1.  A second [create_account], for a checking
    account, in which [random.randint] returns 100000000000 again (a value
    of its range), succeeds: the number it assigns is a key of the account
    dict already, and the savings account stored under it is replaced. *)
Lemma create_account_collision :
  let r := Bank.create_account 100000000000 bank_alice_savings "C1"
             "checking" 0 ∅ in
  (100000000000 ≤ 100000000000 ≤ 999999999999)%Z
  ∧ Bank._accounts bank_alice_savings !! "100000000000"
    = Some (Savings (SavingsAccount.__init__ "100000000000" "C1" 100 0.05))
  ∧ r.1 = Some (Checking
                  (CheckingAccount.__init__ "100000000000" "C1" 0 0))
  ∧ Bank._accounts r.2 !! "100000000000" = r.1
  ∧ size (Bank._accounts r.2) = size (Bank._accounts bank_alice_savings).
Proof. vm_compute. repeat split; congruence. Qed.

End creating_accounts.

(** ** Interest *)

Section interest.
Local Open Scope Q_scope.

(** The loop of [apply_all_interest] over any part [m] of a dict, from
    any state [(full, changed)]. *)
Lemma apply_all_interest_loop (full : gmap string Account) (changed : bool)
    (m : gmap string Account) :
  let st := map_fold Bank.apply_all_interest_step (full, changed) m in
  st.1 = omap accrued m ∪ full
  ∧ (st.2 = true
     ↔ changed = true ∨ ∃ k s, m !! k = Some (Savings s)).
Proof.
  apply (map_fold_weak_ind
           (λ st m, st.1 = omap accrued m ∪ full
                    ∧ (st.2 = true
                       ↔ changed = true ∨ ∃ k s, m !! k = Some (Savings s)))).
  - simpl. rewrite omap_empty, (left_id_L ∅ (∪)). split; [done |].
    split; [by left |]. intros [? | (k & s & Hk)]; [done |].
    by rewrite lookup_empty in Hk.
  - intros k a m' [accounts flag] Hk [Hacc Hflag]. simpl in *.
    destruct a as [s | c]; simpl.
    + rewrite (omap_insert_Some _ _ _ _
                 (Savings (SavingsAccount.apply_interest s))) by done.
      rewrite Hacc, insert_union_l. split; [done |].
      split; [| done]. intros _. right. exists k, s.
      apply lookup_insert_eq.
    + rewrite omap_insert_None by done.
      rewrite delete_id by (by rewrite lookup_omap, Hk).
      split; [done |]. rewrite Hflag.
      split; (intros [? | (k' & s & Hk')]; [by left | right]);
        exists k', s.
      * rewrite lookup_insert_ne; [done |]. intros ->. congruence.
      * apply lookup_insert_Some in Hk' as [[_ ?] | [_ ?]]; [done | done].
Qed.

Lemma accrued_union (m : gmap string Account) :
  omap accrued m ∪ m = accrue <$> m.
Proof.
  apply map_eq. intros k.
  rewrite lookup_union, lookup_omap, lookup_fmap.
  destruct (m !! k) as [[s | c] |]; reflexivity.
Qed.



End interest.

(** ** Saving and loading *)

Section persistence.
Local Open Scope Q_scope.

Lemma set_account_numbers_id (c : Customer.t) :
  Customer.set_account_numbers c (Customer._account_numbers c) = c.
Proof. by destruct c. Qed.

Lemma filter_all {A} (P : A → Prop) `{!∀ x, Decision (P x)} (l : list A) :
  Forall P l → filter P l = l.
Proof.
  induction 1 as [| x l Hx _ IH]; [done |].
  by rewrite filter_cons_True, IH.
Qed.

(** Loading a list of distinct numbers, none of them on the customer yet,
    appends the list. *)
Lemma load_account_numbers_fresh (l : list string) : ∀ c : Customer.t,
  NoDup (Customer._account_numbers c ++ l) →
  Bank.load_account_numbers c (JStr <$> l)
  = Return (Customer.set_account_numbers c
              (Customer._account_numbers c ++ l)).
Proof.
  induction l as [| n l IH]; intros c Hnd; simpl.
  - by rewrite app_nil_r, set_account_numbers_id.
  - unfold Customer.add_account_number.
    rewrite bool_decide_eq_false_2.
    + rewrite IH; simpl.
      * by rewrite <- app_assoc.
      * by rewrite <- app_assoc.
    + apply NoDup_app in Hnd as (_ & Hdisj & _).
      intros Hin. apply (Hdisj n Hin). left.
Qed.

Lemma load_customer_to_dict (c : Customer.t) :
  Customer_inv c →
  Bank.load_customer (JObj (Customer.to_dict c)) = Return c.
Proof.
  intros Hnd. unfold Bank.load_customer. simpl.
  change (Customer.to_dict c !! "account_numbers")
    with (Some (JArr (JStr <$> Customer._account_numbers c))).
  change (getitem (Customer.to_dict c) "customer_id")
    with (Return (JStr (Customer._customer_id c))).
  change (getitem (Customer.to_dict c) "name")
    with (Return (JStr (Customer._name c))).
  change (getitem (Customer.to_dict c) "address")
    with (Return (JStr (Customer._address c))).
  simpl. rewrite load_account_numbers_fresh by done.
  simpl. by destruct c.
Qed.

Lemma load_account_to_dict (a : Account) :
  Account_inv a →
  Bank.load_account (JObj (Account.to_dict a)) = Return (Some a).
Proof.
  intros Hinv. unfold Bank.load_account.
  destruct a as [s | c]; simpl in *.
  - change (SavingsAccount.to_dict s !! "type")
      with (Some (JStr "savings")).
    change (SavingsAccount.to_dict s !! "interest_rate")
      with (Some (JNum (SavingsAccount._interest_rate s))).
    change (getitem (SavingsAccount.to_dict s) "account_number")
      with (Return (JStr (SavingsAccount._account_number s))).
    change (getitem (SavingsAccount.to_dict s) "account_holder_id")
      with (Return (JStr (SavingsAccount._account_holder_id s))).
    change (getitem (SavingsAccount.to_dict s) "balance")
      with (Return (JNum (SavingsAccount._balance s))).
    simpl. unfold SavingsAccount.__init__.
    apply Qle_bool_iff in Hinv. rewrite Hinv. by destruct s.
  - change (CheckingAccount.to_dict c !! "type")
      with (Some (JStr "checking")).
    change (CheckingAccount.to_dict c !! "overdraft_limit")
      with (Some (JNum (CheckingAccount._overdraft_limit c))).
    change (getitem (CheckingAccount.to_dict c) "account_number")
      with (Return (JStr (CheckingAccount._account_number c))).
    change (getitem (CheckingAccount.to_dict c) "account_holder_id")
      with (Return (JStr (CheckingAccount._account_holder_id c))).
    change (getitem (CheckingAccount.to_dict c) "balance")
      with (Return (JNum (CheckingAccount._balance c))).
    simpl. unfold CheckingAccount.__init__.
    apply Qle_bool_iff in Hinv. rewrite Hinv. by destruct c.
Qed.

Lemma load_customers_saved (m : gmap string Customer.t) :
  map_Forall (λ _, Customer_inv) m →
  Bank.load_customers ((λ cust, JObj (Customer.to_dict cust)) <$> m)
  = Return m.
Proof.
  unfold Bank.load_customers. rewrite map_fold_fmap.
  apply (map_fold_weak_ind
           (λ r m, map_Forall (λ _, Customer_inv) m → r = Return m)).
  - done.
  - intros k c m' r Hk IH Hall.
    apply map_Forall_insert in Hall as [Hc Hall]; [| done].
    rewrite (IH Hall). simpl. unfold mbind, result_bind. simpl.
    by rewrite load_customer_to_dict.
Qed.

Lemma load_accounts_saved (m : gmap string Account) :
  map_Forall (λ _, Account_inv) m →
  Bank.load_accounts ((λ acc, JObj (Account.to_dict acc)) <$> m)
  = Return m.
Proof.
  unfold Bank.load_accounts. rewrite map_fold_fmap.
  apply (map_fold_weak_ind
           (λ r m, map_Forall (λ _, Account_inv) m → r = Return m)).
  - done.
  - intros k a m' r Hk IH Hall.
    apply map_Forall_insert in Hall as [Ha Hall]; [| done].
    rewrite (IH Hall). simpl. unfold mbind, result_bind. simpl.
    by rewrite load_account_to_dict.
Qed.

(** On a store that meets the class invariants, loading what
    [_save_data] wrote gives the store back, each customer's list of
    account numbers cut down to the numbers that have an account. *)
Lemma save_load_inv (self : Bank.t) :
  Bank_inv self →
  Bank._load_data (Bank.disk (Bank._save_data self))
  = Return
      {| Bank._customers :=
           Bank.fix_relationships (Bank._accounts self)
             <$> Bank._customers self;
         Bank._accounts := Bank._accounts self;
         Bank.disk := Bank.disk (Bank._save_data self) |}
  ∧ ((∀ k c n, Bank._customers self !! k = Some c →
               n ∈ Customer.account_numbers c →
               is_Some (Bank._accounts self !! n)) →
     Bank._load_data (Bank.disk (Bank._save_data self))
     = Return (Bank._save_data self)).
Proof.
  intros [Hcust Hacc].
  assert (Bank._load_data (Bank.disk (Bank._save_data self))
          = Return
              {| Bank._customers :=
                   Bank.fix_relationships (Bank._accounts self)
                     <$> Bank._customers self;
                 Bank._accounts := Bank._accounts self;
                 Bank.disk := Bank.disk (Bank._save_data self) |}) as Hload.
  { unfold Bank._load_data. simpl.
    rewrite load_customers_saved, load_accounts_saved by done.
    reflexivity. }
  split; [done |]. intros Hrefs. rewrite Hload. f_equal.
  unfold Bank._save_data. f_equal.
  apply map_eq. intros k. rewrite lookup_fmap.
  destruct (Bank._customers self !! k) as [c |] eqn:Hk; [| done].
  simpl. f_equal. unfold Bank.fix_relationships.
  rewrite filter_all.
  - apply set_account_numbers_id.
  - apply Forall_forall. intros n Hn. by apply (Hrefs k c n).
Qed.

End persistence.

(** ** The class invariants hold in every state of the bank *)

Section invariants.
Local Open Scope Q_scope.

Lemma bind_Return {A B} (r : result A) (k : A → result B) (b : B) :
  bind r k = Return b → ∃ a, r = Return a ∧ k a = Return b.
Proof. destruct r as [a | e]; simpl; [eauto | done]. Qed.

Lemma mbind_Return {A B} (r : result A) (k : A → result B) (b : B) :
  r ≫= k = Return b → ∃ a, r = Return a ∧ k a = Return b.
Proof. apply bind_Return. Qed.

Lemma customer_init_inv customer_id name address :
  Customer_inv (Customer.__init__ customer_id name address).
Proof. apply NoDup_nil_2. Qed.

Lemma add_account_number_inv (c : Customer.t) (n : string) :
  Customer_inv c → Customer_inv (Customer.add_account_number c n).
Proof.
  unfold Customer_inv, Customer.add_account_number. intros Hnd.
  case_bool_decide as Hin; [done |]. simpl.
  apply NoDup_app. split; [done |]. split; [| apply NoDup_singleton].
  intros x Hx ->%list_elem_of_singleton. done.
Qed.

Lemma load_account_numbers_inv (l : list json) : ∀ c c' : Customer.t,
  Customer_inv c → Bank.load_account_numbers c l = Return c' →
  Customer_inv c'.
Proof.
  induction l as [| j l IH]; simpl; intros c c' Hc Hload.
  - by injection Hload as <-.
  - apply mbind_Return in Hload as (n & _ & Hload).
    eapply IH; [| done]. by apply add_account_number_inv.
Qed.

Lemma load_customer_inv (j : json) (c : Customer.t) :
  Bank.load_customer j = Return c → Customer_inv c.
Proof.
  unfold Bank.load_customer. intros Hload.
  apply mbind_Return in Hload as (d & _ & Hload).
  apply mbind_Return in Hload as (customer_id & _ & Hload).
  apply mbind_Return in Hload as (name & _ & Hload).
  apply mbind_Return in Hload as (address & _ & Hload).
  destruct (default _ _); try done.
  eapply load_account_numbers_inv; [| done]. apply customer_init_inv.
Qed.

Lemma load_customers_inv (data : gmap string json)
    (m : gmap string Customer.t) :
  Bank.load_customers data = Return m → map_Forall (λ _, Customer_inv) m.
Proof.
  unfold Bank.load_customers. revert m.
  apply (map_fold_weak_ind
           (λ r _, ∀ m, r = Return m → map_Forall (λ _, Customer_inv) m)).
  - intros m [= <-]. apply map_Forall_empty.
  - intros k j _ r _ IH m Hload.
    apply mbind_Return in Hload as (m' & -> & Hload).
    apply mbind_Return in Hload as (c & Hc & [= <-]).
    apply map_Forall_insert_2; [| by apply IH].
    by apply (load_customer_inv j).
Qed.

Lemma load_account_inv (j : json) (a : Account) :
  Bank.load_account j = Return (Some a) → Account_inv a.
Proof.
  unfold Bank.load_account. intros Hload.
  apply mbind_Return in Hload as (d & _ & Hload).
  destruct (is_str _ "savings"); [| destruct (is_str _ "checking")].
  - apply mbind_Return in Hload as (n & _ & Hload).
    apply mbind_Return in Hload as (h & _ & Hload).
    apply mbind_Return in Hload as (b & _ & Hload).
    apply mbind_Return in Hload as (r & _ & [= <-]).
    apply savings_init_inv.
  - apply mbind_Return in Hload as (n & _ & Hload).
    apply mbind_Return in Hload as (h & _ & Hload).
    apply mbind_Return in Hload as (b & _ & Hload).
    apply mbind_Return in Hload as (l & _ & [= <-]).
    apply checking_init_inv.
  - done.
Qed.

Lemma load_accounts_inv (data : gmap string json)
    (m : gmap string Account) :
  Bank.load_accounts data = Return m → map_Forall (λ _, Account_inv) m.
Proof.
  unfold Bank.load_accounts. revert m.
  apply (map_fold_weak_ind
           (λ r _, ∀ m, r = Return m → map_Forall (λ _, Account_inv) m)).
  - intros m [= <-]. apply map_Forall_empty.
  - intros k j _ r _ IH m Hload.
    apply mbind_Return in Hload as (m' & -> & Hload).
    apply mbind_Return in Hload as ([a |] & Ha & [= <-]).
    + apply map_Forall_insert_2; [| by apply IH].
      by apply (load_account_inv j).
    + by apply IH.
Qed.

Lemma fix_relationships_inv (accounts : gmap string Account)
    (c : Customer.t) :
  Customer_inv c → Customer_inv (Bank.fix_relationships accounts c).
Proof. apply NoDup_filter. Qed.

Lemma load_data_inv (d : Bank.Disk) (self : Bank.t) :
  Bank._load_data d = Return self → Bank_inv self.
Proof.
  unfold Bank._load_data. intros Hload.
  apply mbind_Return in Hload as (customers & Hc & Hload).
  apply mbind_Return in Hload as (accounts & Ha & [= <-]).
  split; simpl.
  - apply map_Forall_fmap. intros k c Hk. apply fix_relationships_inv.
    revert k c Hk. destruct (Bank.customer_file d) as [[] |];
      try done; [by apply load_customers_inv in Hc |].
    injection Hc as <-. apply map_Forall_empty.
  - destruct (Bank.account_file d) as [[] |];
      try done; [by apply load_accounts_inv in Ha |].
    injection Ha as <-. apply map_Forall_empty.
Qed.

Lemma save_data_inv (self : Bank.t) :
  Bank_inv self → Bank_inv (Bank._save_data self).
Proof. done. Qed.

Lemma add_customer_inv (self : Bank.t) (customer : Customer.t) :
  Customer_inv customer → Bank_inv self →
  Bank_inv (Bank.add_customer self customer).2.
Proof.
  intros Hc [Hcust Hacc]. unfold Bank.add_customer.
  case_bool_decide; [done |]. split; [| done].
  by apply map_Forall_insert_2.
Qed.

Lemma remove_customer_inv (self : Bank.t) (customer_id : string) :
  Bank_inv self → Bank_inv (Bank.remove_customer self customer_id).2.
Proof.
  intros [Hcust Hacc]. unfold Bank.remove_customer.
  destruct (_ !! customer_id) as [c |]; [| done].
  destruct (Customer.account_numbers c); [| done].
  split; [| done]. by apply map_Forall_delete.
Qed.

Lemma create_account_inv rnd (self : Bank.t) customer_id account_type
    initial_balance kwargs :
  Bank_inv self →
  Bank_inv (Bank.create_account rnd self customer_id account_type
              initial_balance kwargs).2.
Proof.
  intros [Hcust Hacc]. unfold Bank.create_account.
  destruct (_ !! customer_id) as [c |] eqn:Hc; [| done].
  pose proof (add_account_number_inv c (pretty rnd) (Hcust _ _ Hc)).
  destruct (String.eqb _ "savings"); [| destruct (String.eqb _ "checking")];
    [| | done].
  - split; simpl; apply map_Forall_insert_2; try done.
    apply savings_init_inv.
  - split; simpl; apply map_Forall_insert_2; try done.
    apply checking_init_inv.
Qed.

Lemma deposit_inv (self : Bank.t) account_number amount :
  Bank_inv self → Bank_inv (Bank.deposit self account_number amount).2.
Proof.
  intros [Hcust Hacc]. unfold Bank.deposit.
  destruct (_ !! account_number) as [a |] eqn:Ha; [| done].
  pose proof (account_deposit_inv a amount (Hacc _ _ Ha)).
  destruct (Account.deposit a amount) as [[] a'];
    (split; [done |]; by apply map_Forall_insert_2).
Qed.

Lemma withdraw_inv (self : Bank.t) account_number amount :
  Bank_inv self → Bank_inv (Bank.withdraw self account_number amount).2.
Proof.
  intros [Hcust Hacc]. unfold Bank.withdraw.
  destruct (_ !! account_number) as [a |] eqn:Ha; [| done].
  pose proof (account_withdraw_inv a amount (Hacc _ _ Ha)).
  destruct (Account.withdraw a amount) as [[] a'];
    (split; [done |]; by apply map_Forall_insert_2).
Qed.

Lemma transfer_funds_inv (self : Bank.t) from_acc_num to_acc_num amount :
  Bank_inv self →
  Bank_inv (Bank.transfer_funds self from_acc_num to_acc_num amount).2.
Proof.
  intros [Hcust Hacc].
  destruct (Bank._accounts self !! from_acc_num) as [a |] eqn:Ha;
    [| by unfold Bank.transfer_funds; rewrite Ha].
  destruct (Bank._accounts self !! to_acc_num) as [b |] eqn:Hb;
    [| by unfold Bank.transfer_funds; rewrite Ha, Hb].
  rewrite (transfer_funds_unfold _ _ _ _ a b Ha Hb).
  destruct (Qle_bool amount 0); [done |].
  destruct (negb _); [done |]. split; [done |]. simpl.
  pose proof (account_withdraw_inv a amount (Hacc _ _ Ha)).
  apply map_Forall_insert_2; [| by apply map_Forall_insert_2].
  apply account_deposit_inv. case_bool_decide; [done |]. by apply (Hacc _ _ Hb).
Qed.

Lemma apply_all_interest_inv (self : Bank.t) :
  Bank_inv self → Bank_inv (Bank.apply_all_interest self).
Proof.
  intros [Hcust Hacc]. unfold Bank.apply_all_interest.
  destruct (apply_all_interest_loop (Bank._accounts self) false
              (Bank._accounts self)) as [Hloop _].
  destruct (map_fold _ _ _) as [accounts flag]. simpl in *.
  rewrite accrued_union in Hloop. subst accounts.
  assert (map_Forall (λ _, Account_inv) (accrue <$> Bank._accounts self)).
  { apply map_Forall_fmap. intros k a Hk. apply accrue_inv.
    by apply (Hacc _ _ Hk). }
  by destruct flag.
Qed.

(** Every state of the bank meets the class invariants. *)
Lemma reachable_inv (self : Bank.t) : reachable self → Bank_inv self.
Proof.
  induction 1 as [d self Hinit | | | | | | | |].
  - by apply (load_data_inv d).
  - split; apply map_Forall_empty.
  - by apply add_customer_inv.
  - by apply remove_customer_inv.
  - by apply create_account_inv.
  - by apply deposit_inv.
  - by apply withdraw_inv.
  - by apply transfer_funds_inv.
  - by apply apply_all_interest_inv.
Qed.

End invariants.

(** ** The round trip through the disk *)



(** * Further properties of the code *)

(** ** Accounts *)

Section more_on_accounts.
Local Open Scope Q_scope.



Lemma savings_do_identity (s : SavingsAccount.t) (c : savings_call) :
  let s' := (savings_do s c).2 in
  SavingsAccount._account_number s' = SavingsAccount._account_number s
  ∧ SavingsAccount._account_holder_id s' = SavingsAccount._account_holder_id s
  ∧ SavingsAccount._interest_rate s' = SavingsAccount._interest_rate s.
Proof.
  destruct c as [amount | amount |]; simpl.
  - unfold SavingsAccount.deposit. by destruct (Qle_bool amount 0).
  - unfold SavingsAccount.withdraw. by destruct (_ || _).
  - done.
Qed.

Lemma checking_do_identity (c : CheckingAccount.t) (k : checking_call) :
  let c' := (checking_do c k).2 in
  CheckingAccount._account_number c' = CheckingAccount._account_number c
  ∧ CheckingAccount._account_holder_id c'
    = CheckingAccount._account_holder_id c
  ∧ CheckingAccount._overdraft_limit c' = CheckingAccount._overdraft_limit c.
Proof.
  destruct k as [amount | amount]; simpl.
  - unfold CheckingAccount.deposit. by destruct (Qle_bool amount 0).
  - unfold CheckingAccount.withdraw. destruct (Qle_bool amount 0); [done |].
    by destruct (Qltb _ _).
Qed.

(** No sequence of deposit, withdraw and apply-interest calls changes the
    number, the holder or the rate of a savings account, and no sequence of
    deposit and withdraw calls the number, the holder or the limit of a
    checking account; and a sequence in which every call is rejected leaves
    the object as it was. *)
Theorem calls_change_the_balance_only :
  (∀ (cs : list savings_call) (s : SavingsAccount.t),
     let s' := (savings_run s cs).2 in
     SavingsAccount._account_number s' = SavingsAccount._account_number s
     ∧ SavingsAccount._account_holder_id s'
       = SavingsAccount._account_holder_id s
     ∧ SavingsAccount._interest_rate s' = SavingsAccount._interest_rate s
     ∧ (Forall (λ ok, ok = false) (savings_run s cs).1 → s' = s))
  ∧ (∀ (cs : list checking_call) (c : CheckingAccount.t),
       let c' := (checking_run c cs).2 in
       CheckingAccount._account_number c' = CheckingAccount._account_number c
       ∧ CheckingAccount._account_holder_id c'
         = CheckingAccount._account_holder_id c
       ∧ CheckingAccount._overdraft_limit c'
         = CheckingAccount._overdraft_limit c
       ∧ (Forall (λ ok, ok = false) (checking_run c cs).1 → c' = c)).
Proof.
  split.
  - induction cs as [| k cs IH]; intros s; simpl; [done |].
    destruct (savings_do_identity s k) as (Hn & Hh & Hr).
    assert ((savings_do s k).1 = false → (savings_do s k).2 = s) as Hrej.
    { destruct k as [amount | amount |]; simpl; [| | done].
      - apply savings_deposit_rejected.
      - apply savings_withdraw_rejected. }
    destruct (savings_do s k) as [ok s1]. simpl in *.
    destruct (IH s1) as (Hn' & Hh' & Hr' & Hrej').
    destruct (savings_run s1 cs) as [oks s2]. simpl in *.
    rewrite Hn', Hh', Hr'. do 3 (split; [done |]).
    intros Hall. apply Forall_cons in Hall as [Hok Hall].
    rewrite (Hrej' Hall). by apply Hrej.
  - induction cs as [| k cs IH]; intros c; simpl; [done |].
    destruct (checking_do_identity c k) as (Hn & Hh & Hl).
    assert ((checking_do c k).1 = false → (checking_do c k).2 = c) as Hrej.
    { destruct k as [amount | amount]; simpl.
      - apply checking_deposit_rejected.
      - apply checking_withdraw_rejected. }
    destruct (checking_do c k) as [ok c1]. simpl in *.
    destruct (IH c1) as (Hn' & Hh' & Hl' & Hrej').
    destruct (checking_run c1 cs) as [oks c2]. simpl in *.
    rewrite Hn', Hh', Hl'. do 3 (split; [done |]).
    intros Hall. apply Forall_cons in Hall as [Hok Hall].
    rewrite (Hrej' Hall). by apply Hrej.
Qed.

Lemma calls_change_the_balance_only_witness :
  (savings_run (SavingsAccount.__init__ "100000000000" "C1" 100 0.05)
     [SDeposit 0; SWithdraw 500; SDeposit (-3)]).2
  = SavingsAccount.__init__ "100000000000" "C1" 100 0.05.
Proof.
  apply (proj1 calls_change_the_balance_only
           [SDeposit 0; SWithdraw 500; SDeposit (-3)]
           (SavingsAccount.__init__ "100000000000" "C1" 100 0.05)).
  repeat constructor.
Defined.

End more_on_accounts.

(** ** The account numbers of a customer *)

Section account_numbers.

Lemma list_remove_snoc (x : string) (l : list string) :
  x ∉ l → Customer.list_remove x (l ++ [x]) = l.
Proof.
  induction l as [| y l IH]; intros Hx; simpl.
  - by rewrite bool_decide_eq_true_2.
  - apply not_elem_of_cons in Hx as [Hne Hx].
    rewrite bool_decide_eq_false_2 by done. by rewrite IH.
Qed.

Lemma list_remove_absent (x : string) (l : list string) :
  x ∉ l → Customer.list_remove x l = l.
Proof.
  induction l as [| y l IH]; intros Hx; simpl; [done |].
  apply not_elem_of_cons in Hx as [Hne Hx].
  rewrite bool_decide_eq_false_2 by done. by rewrite IH.
Qed.

Lemma elem_of_list_remove_ne (x y : string) (l : list string) :
  y ≠ x → y ∈ Customer.list_remove x l ↔ y ∈ l.
Proof.
  intros Hne. induction l as [| z l IH]; simpl; [done |].
  case_bool_decide as Hz.
  - subst z. rewrite elem_of_cons. split; [by right | by intros [-> | ?]].
  - rewrite !elem_of_cons, IH. done.
Qed.

Lemma list_remove_NoDup (x : string) (l : list string) :
  NoDup l →
  (x ∉ Customer.list_remove x l) ∧ NoDup (Customer.list_remove x l).
Proof.
  induction 1 as [| z l Hz Hnd IH]; simpl.
  - split; [apply not_elem_of_nil | apply NoDup_nil_2].
  - case_bool_decide as Hzx.
    + subst z. done.
    + destruct IH as [Hx Hnd']. split.
      * apply not_elem_of_cons. split; [congruence | done].
      * apply NoDup_cons. split; [| done].
        by rewrite elem_of_list_remove_ne.
Qed.

Lemma elem_of_add_account_number (c : Customer.t) (n m : string) :
  m ∈ Customer.account_numbers (Customer.add_account_number c n)
  ↔ m = n ∨ m ∈ Customer.account_numbers c.
Proof.
  unfold Customer.add_account_number.
  case_bool_decide as Hin; simpl.
  - split; [by right | by intros [-> | ?]].
  - unfold Customer.account_numbers. simpl.
    rewrite elem_of_app, list_elem_of_singleton. tauto.
Qed.

(** The account numbers of a customer behave as a set kept in insertion
    order.  Adding a number makes it a member, changes no other membership
    and has no effect the second time; removing a number that was just
    added, and was not there before, gives the customer back; on a customer
    whose numbers are pairwise distinct, removing a number leaves no
    occurrence of it, changes no other membership and keeps the numbers
    distinct; removing an absent number changes nothing. *)
Theorem account_numbers_laws (c : Customer.t) (n : string) :
  (∀ m, m ∈ Customer.account_numbers (Customer.add_account_number c n)
        ↔ m = n ∨ m ∈ Customer.account_numbers c)
  ∧ Customer.add_account_number (Customer.add_account_number c n) n
    = Customer.add_account_number c n
  ∧ (n ∉ Customer.account_numbers c →
       Customer.remove_account_number (Customer.add_account_number c n) n = c
       ∧ Customer.remove_account_number c n = c)
  ∧ (Customer_inv c →
       (n ∉ Customer.account_numbers (Customer.remove_account_number c n))
       ∧ Customer_inv (Customer.remove_account_number c n)
       ∧ ∀ m, m ≠ n →
              m ∈ Customer.account_numbers (Customer.remove_account_number c n)
              ↔ m ∈ Customer.account_numbers c).
Proof.
  pose proof (elem_of_add_account_number c n) as Hmem.
  split; [done |]. split; [| split].
  - unfold Customer.add_account_number at 1.
    rewrite bool_decide_eq_true_2; [done |]. apply Hmem. by left.
  - intros Hfresh. split.
    + unfold Customer.remove_account_number.
      rewrite bool_decide_eq_true_2 by (apply Hmem; by left).
      unfold Customer.add_account_number.
      rewrite bool_decide_eq_false_2 by done. simpl.
      rewrite list_remove_snoc by done. by destruct c.
    + unfold Customer.remove_account_number.
      by rewrite bool_decide_eq_false_2.
  - intros Hnd. unfold Customer.remove_account_number.
    case_bool_decide as Hin; simpl.
    + destruct (list_remove_NoDup n _ Hnd) as [Hgone Hnd'].
      split; [done |]. split; [done |].
      intros m Hne. by apply elem_of_list_remove_ne.
    + done.
Qed.

Lemma account_numbers_laws_witness :
  let c := Customer.add_account_number
             (Customer.__init__ "C1" "Alice" "1 Main St") "100000000000" in
  Customer.remove_account_number
    (Customer.add_account_number c "200000000000") "200000000000" = c
  ∧ ("100000000000"
     ∉ Customer.account_numbers
         (Customer.remove_account_number c "100000000000")).
Proof.
  split.
  - apply (account_numbers_laws
             (Customer.add_account_number
                (Customer.__init__ "C1" "Alice" "1 Main St") "100000000000")
             "200000000000").
    intros Hin. apply list_elem_of_singleton in Hin. discriminate.
  - apply (account_numbers_laws
             (Customer.add_account_number
                (Customer.__init__ "C1" "Alice" "1 Main St") "100000000000")
             "100000000000").
    apply NoDup_singleton.
Defined.

End account_numbers.

(** ** The operations of the bank, one call at a time *)

Section one_call.
Local Open Scope Q_scope.



(** What a call of a method on the account stored under a number does to
    the bank, for the two methods [Bank.deposit] and [Bank.withdraw] go
    through. *)
Lemma account_call_frame (self : Bank.t) (n : string) (a a' : Account) :
  Bank._accounts self !! n = Some a →
  let self' := Bank.set_accounts self (<[n := a']> (Bank._accounts self)) in
  Bank._accounts self' !! n = Some a'
  ∧ (∀ k, k ≠ n → Bank._accounts self' !! k = Bank._accounts self !! k)
  ∧ Bank._customers self' = Bank._customers self.
Proof.
  intros Ha. simpl. rewrite lookup_insert_eq. split; [done |].
  split; [| done]. intros k Hne. by rewrite lookup_insert_ne.
Qed.





End one_call.

(** ** Transfers and new accounts *)

Section transfers_and_creation.
Local Open Scope Q_scope.



Lemma eqb_false_ne (s1 s2 : string) : String.eqb s1 s2 = false ↔ s1 ≠ s2.
Proof. apply String.eqb_neq. Qed.

(** The two outcomes of [create_account]. *)
Lemma create_account_cases (rnd : Z) (self : Bank.t)
    (customer_id account_type : string) (initial_balance : Q)
    (kwargs : gmap string Q) :
  let r := Bank.create_account rnd self customer_id account_type
             initial_balance kwargs in
  (r.1 = None ∧ r.2 = self)
  ∨ (∃ a c,
       r.1 = Some a
       ∧ Bank._customers self !! customer_id = Some c
       ∧ Account.account_number a = pretty rnd
       ∧ Account.account_holder_id a = customer_id
       ∧ Account_inv a
       ∧ r.2 = Bank._save_data
                 {| Bank._customers :=
                      <[customer_id :=
                          Customer.add_account_number c (pretty rnd)]>
                        (Bank._customers self);
                    Bank._accounts :=
                      <[pretty rnd := a]> (Bank._accounts self);
                    Bank.disk := Bank.disk self |}).
Proof.
  intros r. subst r. unfold Bank.create_account.
  destruct (Bank._customers self !! customer_id) as [c |] eqn:Hc;
    [| by left].
  destruct (String.eqb (lower account_type) "savings").
  { right. eexists _, c. do 4 (split; [done |]).
    split; [apply savings_init_inv | done]. }
  destruct (String.eqb (lower account_type) "checking"); [| by left].
  right. eexists _, c. do 4 (split; [done |]).
  split; [apply checking_init_inv | done].
Qed.



(** Two calls of [create_account] with different draws assign different
    numbers: the account the first call returned is still stored under its
    number after the second call, whatever the second call does. *)
Theorem create_account_distinct_draws (rnd1 rnd2 : Z) (self : Bank.t)
    (customer_id1 account_type1 customer_id2 account_type2 : string)
    (initial_balance1 initial_balance2 : Q) (kwargs1 kwargs2 : gmap string Q)
    (a1 : Account) :
  rnd1 ≠ rnd2 →
  let r1 := Bank.create_account rnd1 self customer_id1 account_type1
              initial_balance1 kwargs1 in
  let r2 := Bank.create_account rnd2 r1.2 customer_id2 account_type2
              initial_balance2 kwargs2 in
  r1.1 = Some a1 →
  Bank._accounts r2.2 !! pretty rnd1 = Some a1
  ∧ (∀ a2, r2.1 = Some a2 →
       Account.account_number a2 ≠ Account.account_number a1
       ∧ Bank._accounts r2.2 !! pretty rnd2 = Some a2).
Proof.
  intros Hne r1 r2 H1.
  assert (pretty rnd2 ≠ pretty rnd1) as Hpne.
  { intros Heq. apply Hne. symmetry. by apply (inj pretty). }
  pose proof (create_account_cases rnd1 self customer_id1 account_type1
                initial_balance1 kwargs1) as Hfirst.
  pose proof (create_account_cases rnd2 r1.2 customer_id2 account_type2
                initial_balance2 kwargs2) as Hsecond.
  change (Bank.create_account rnd1 self customer_id1 account_type1
            initial_balance1 kwargs1) with r1 in Hfirst.
  change (Bank.create_account rnd2 r1.2 customer_id2 account_type2
            initial_balance2 kwargs2) with r2 in Hsecond.
  simpl in Hfirst, Hsecond. clearbody r1 r2.
  destruct Hfirst as [[Hnone _] | (a & c & Ha & _ & Hn1 & _ & _ & Hr1)];
    [congruence |].
  assert (a = a1) as -> by congruence.
  destruct Hsecond
    as [[Hnone Hsame] | (a2 & c2 & Ha2 & _ & Hn2 & _ & _ & Hr2)].
  - rewrite Hsame, Hr1. simpl. split; [apply lookup_insert_eq |].
    intros ? ?. congruence.
  - rewrite Hr2. simpl. rewrite lookup_insert_ne by done.
    rewrite Hr1. simpl. split; [apply lookup_insert_eq |].
    intros a2' Ha2'. assert (a2' = a2) as -> by congruence.
    rewrite Hn1, Hn2. split; [done | apply lookup_insert_eq].
Qed.

Lemma create_account_distinct_draws_witness :
  let r1 := Bank.create_account 100000000000 bank_alice "C1" "savings" 100
              {["interest_rate" := 0.05%Q]} in
  let r2 := Bank.create_account 200000000000 r1.2 "C1" "checking" 50
              {["overdraft_limit" := 20%Q]} in
  Bank._accounts r2.2 !! "100000000000"
  = Some (Savings (SavingsAccount.__init__ "100000000000" "C1" 100 0.05)).
Proof.
  apply (create_account_distinct_draws 100000000000 200000000000 bank_alice
           "C1" "savings" "C1" "checking" 100 50
           {["interest_rate" := 0.05%Q]} {["overdraft_limit" := 20%Q]}
           (Savings (SavingsAccount.__init__ "100000000000" "C1" 100 0.05))).
  - discriminate.
  - reflexivity.
Defined.

End transfers_and_creation.

(** ** Reading the files *)

Section reading_files.
Local Open Scope Q_scope.

Lemma raises_bind {A B} (r : result A) (k : A → result B) :
  raises r → raises (r ≫= k).
Proof. intros [e ->]. by exists e. Qed.





End reading_files.

(** ** What one call does to the state *)

Section steps.
Local Open Scope Q_scope.

Lemma same_account_refl (a : Account) : same_account a a.
Proof. by repeat split. Qed.

Lemma same_account_deposit (a : Account) (amount : Q) :
  same_account a (Account.deposit a amount).2.
Proof.
  unfold same_account. destruct a as [s | c]; simpl.
  - unfold SavingsAccount.deposit. by destruct (Qle_bool amount 0).
  - unfold CheckingAccount.deposit. by destruct (Qle_bool amount 0).
Qed.

Lemma same_account_withdraw (a : Account) (amount : Q) :
  same_account a (Account.withdraw a amount).2.
Proof.
  unfold same_account. destruct a as [s | c]; simpl.
  - unfold SavingsAccount.withdraw. by destruct (_ || _).
  - unfold CheckingAccount.withdraw.
    destruct (Qle_bool amount 0); [done |]. by destruct (Qltb _ _).
Qed.

Lemma same_account_accrue (a : Account) : same_account a (accrue a).
Proof. destruct a; by repeat split. Qed.

Lemma same_account_trans (a b c : Account) :
  same_account a b → same_account b c → same_account a c.
Proof.
  intros (Hn & Hh & Hk & Hi) (Hn' & Hh' & Hk' & Hi').
  split; [congruence |]. split; [congruence |]. split; [congruence |]. auto.
Qed.

Lemma balances_only_refl (self : Bank.t) : balances_only self self.
Proof.
  split; [done |]. intros k.
  destruct (Bank._accounts self !! k); constructor. apply same_account_refl.
Qed.

Lemma balances_only_trans (b1 b2 b3 : Bank.t) :
  balances_only b1 b2 → balances_only b2 b3 → balances_only b1 b3.
Proof.
  intros [Hc Ha] [Hc' Ha']. split; [congruence |]. intros k.
  specialize (Ha k). specialize (Ha' k).
  destruct Ha as [a b Hab |]; inversion Ha' as [b' c Hbc |]; subst;
    constructor. by apply (same_account_trans a b c).
Qed.

(** Writing back an account that differs from the stored one in the balance
    at most. *)
Lemma balances_only_insert (self : Bank.t) (n : string) (a a' : Account) :
  Bank._accounts self !! n = Some a → same_account a a' →
  balances_only self
    (Bank.set_accounts self (<[n := a']> (Bank._accounts self))).
Proof.
  intros Ha Hsame. split; [done |]. intros k. simpl.
  destruct (decide (k = n)) as [-> | Hne].
  - rewrite lookup_insert_eq, Ha. by constructor.
  - rewrite lookup_insert_ne by done.
    destruct (Bank._accounts self !! k); constructor. apply same_account_refl.
Qed.

Lemma balances_only_save (self self' : Bank.t) :
  balances_only self self' → balances_only self (Bank._save_data self').
Proof. done. Qed.

Lemma deposit_balances_only (self : Bank.t) (n : string) (amount : Q) :
  balances_only self (Bank.deposit self n amount).2.
Proof.
  unfold Bank.deposit.
  destruct (Bank._accounts self !! n) as [a |] eqn:Ha;
    [| apply balances_only_refl].
  pose proof (balances_only_insert self n a _ Ha
                (same_account_deposit a amount)) as H.
  destruct (Account.deposit a amount) as [[] a']; [apply balances_only_save |];
    exact H.
Qed.

Lemma withdraw_balances_only (self : Bank.t) (n : string) (amount : Q) :
  balances_only self (Bank.withdraw self n amount).2.
Proof.
  unfold Bank.withdraw.
  destruct (Bank._accounts self !! n) as [a |] eqn:Ha;
    [| apply balances_only_refl].
  pose proof (balances_only_insert self n a _ Ha
                (same_account_withdraw a amount)) as H.
  destruct (Account.withdraw a amount) as [[] a']; [apply balances_only_save |];
    exact H.
Qed.

Lemma transfer_funds_balances_only (self : Bank.t) (A B : string)
    (amount : Q) :
  balances_only self (Bank.transfer_funds self A B amount).2.
Proof.
  destruct (Bank._accounts self !! A) as [a |] eqn:HA;
    [| unfold Bank.transfer_funds; rewrite HA; apply balances_only_refl].
  destruct (Bank._accounts self !! B) as [b |] eqn:HB;
    [| unfold Bank.transfer_funds; rewrite HA, HB; apply balances_only_refl].
  rewrite (transfer_funds_unfold _ _ _ _ a b HA HB).
  destruct (Qle_bool amount 0); [apply balances_only_refl |].
  destruct (negb _); [apply balances_only_refl |]. simpl.
  apply balances_only_save.
  pose proof (balances_only_insert self A a _ HA
                (same_account_withdraw a amount)) as H1.
  eapply balances_only_trans; [exact H1 |].
  set (self1 := Bank.set_accounts self _) in *.
  change (<[A := (Account.withdraw a amount).2]> (Bank._accounts self))
    with (Bank._accounts self1).
  change (Bank.set_accounts self
            (<[B := ?x]> (Bank._accounts self1)))
    with (Bank.set_accounts self1 (<[B := x]> (Bank._accounts self1))).
  case_bool_decide as Heq.
  - subst B. apply (balances_only_insert self1 A (Account.withdraw a amount).2);
      [apply lookup_insert_eq | apply same_account_deposit].
  - apply (balances_only_insert self1 B b);
      [| apply same_account_deposit].
    subst self1. simpl. by rewrite lookup_insert_ne.
Qed.

(** The two outcomes of [apply_all_interest]. *)
Lemma apply_all_interest_cases (self : Bank.t) :
  (Bank.apply_all_interest self = self
   ∧ accrue <$> Bank._accounts self = Bank._accounts self)
  ∨ Bank.apply_all_interest self
    = Bank._save_data
        (Bank.set_accounts self (accrue <$> Bank._accounts self)).
Proof.
  unfold Bank.apply_all_interest.
  destruct (apply_all_interest_loop (Bank._accounts self) false
              (Bank._accounts self)) as [Hacc Hflag].
  destruct (map_fold _ _ _) as [accounts flag]. simpl in *.
  rewrite accrued_union in Hacc. subst accounts.
  destruct flag; [by right | left].
  assert (accrue <$> Bank._accounts self = Bank._accounts self) as Hid.
  { apply map_eq. intros k. rewrite lookup_fmap.
    destruct (Bank._accounts self !! k) as [[s | c] |] eqn:Hk; [| done | done].
    assert (false = true) as Hf; [| done].
    apply Hflag. right. eauto. }
  split; [| done]. rewrite Hid. by destruct self.
Qed.

Lemma apply_all_interest_balances_only (self : Bank.t) :
  balances_only self (Bank.apply_all_interest self).
Proof.
  destruct (apply_all_interest_cases self) as [[-> _] | ->];
    [apply balances_only_refl |].
  split; [done |]. intros k. simpl. rewrite lookup_fmap.
  destruct (Bank._accounts self !! k); constructor. apply same_account_accrue.
Qed.

Lemma money_call_balances_only (self : Bank.t) (c : bank_call) :
  is_money_call c = true → balances_only self (bank_do self c).
Proof.
  destruct c; try done; intros _; simpl.
  - apply deposit_balances_only.
  - apply withdraw_balances_only.
  - apply transfer_funds_balances_only.
  - apply apply_all_interest_balances_only.
Qed.

End steps.

(** ** Sequences of calls on the bank *)

Section runs.
Local Open Scope Q_scope.

Lemma bank_run_snoc (self : Bank.t) (cs : list bank_call) (c : bank_call) :
  bank_run self (cs ++ [c]) = bank_do (bank_run self cs) c.
Proof. unfold bank_run. by rewrite foldl_app. Qed.



(** *** What a loaded bank satisfies *)

Lemma load_data_parts (d : Bank.Disk) (self : Bank.t) :
  Bank._load_data d = Return self →
  ∃ customers accounts,
    self = {| Bank._customers :=
                Bank.fix_relationships accounts <$> customers;
              Bank._accounts := accounts;
              Bank.disk := d |}
    ∧ (Bank.customer_file d = None → customers = ∅)
    ∧ (Bank.account_file d = None → accounts = ∅).
Proof.
  unfold Bank._load_data. intros Hload.
  apply mbind_Return in Hload as (customers & Hc & Hload).
  apply mbind_Return in Hload as (accounts & Ha & [= <-]).
  exists customers, accounts. split; [done |]. split.
  - intros Hnone. rewrite Hnone in Hc. by injection Hc.
  - intros Hnone. rewrite Hnone in Ha. by injection Ha.
Qed.

Lemma load_data_refs (d : Bank.Disk) (self : Bank.t) :
  Bank._load_data d = Return self → refs_ok self.
Proof.
  intros (customers & accounts & -> & _)%load_data_parts.
  intros k c n Hk Hn. simpl in *.
  rewrite lookup_fmap in Hk.
  destruct (customers !! k) as [c0 |]; [| done].
  injection Hk as <-. unfold Bank.fix_relationships in Hn. simpl in Hn.
  by apply list_elem_of_filter in Hn as [? _].
Qed.



End runs.

(** ** Restarting the program *)

Section restart.
Local Open Scope Q_scope.

Lemma bank_do_inv (self : Bank.t) (c : bank_call) :
  Bank_inv self → Bank_inv (bank_do self c).
Proof.
  destruct c; simpl; intros Hinv.
  - apply add_customer_inv; [apply customer_init_inv | done].
  - by apply remove_customer_inv.
  - by apply create_account_inv.
  - by apply deposit_inv.
  - by apply withdraw_inv.
  - by apply transfer_funds_inv.
  - by apply apply_all_interest_inv.
  - split; apply map_Forall_empty.
Qed.

Lemma balances_only_refs (self self' : Bank.t) :
  balances_only self self' → refs_ok self → refs_ok self'.
Proof.
  intros [Hc Ha] Hrefs k c n Hk Hn. rewrite Hc in Hk.
  destruct (Hrefs k c n Hk Hn) as [a Hacc].
  specialize (Ha n). rewrite Hacc in Ha. inversion Ha. by eexists.
Qed.

Lemma bank_do_refs (self : Bank.t) (c : bank_call) :
  refs_ok self → refs_ok (bank_do self c).
Proof.
  intros Hrefs.
  destruct (is_money_call c) eqn:Hmoney.
  { eapply balances_only_refs; [| done].
    by apply money_call_balances_only. }
  destruct c; try done; simpl.
  - unfold Bank.add_customer. case_bool_decide; [done |].
    intros k c n Hk Hn. simpl in *.
    apply lookup_insert_Some in Hk as [[_ <-] | [_ Hk]].
    + by apply elem_of_nil in Hn.
    + by apply (Hrefs k c n).
  - unfold Bank.remove_customer.
    destruct (_ !! customer_id) as [c0 |]; [| done].
    destruct (Customer.account_numbers c0); [| done].
    intros k c n Hk Hn. simpl in *.
    apply lookup_delete_Some in Hk as [_ Hk]. by apply (Hrefs k c n).
  - destruct (create_account_cases rnd self customer_id account_type
                initial_balance kwargs)
      as [[_ ->] | (a & c0 & _ & Hc0 & _ & _ & _ & ->)]; [done |].
    intros k c n Hk Hn. simpl in *.
    apply lookup_insert_is_Some'.
    apply lookup_insert_Some in Hk as [[_ <-] | [_ Hk]].
    + apply elem_of_add_account_number in Hn as [-> | Hn]; [by left |].
      right. by apply (Hrefs customer_id c0 n).
    + right. by apply (Hrefs k c n).
Qed.

(** A call leaves the bank as it was, or ends with [_save_data], or is
    [clear_all_data]. *)
Lemma bank_do_shape (self : Bank.t) (c : bank_call) :
  bank_do self c = self
  ∨ (∃ x, bank_do self c = Bank._save_data x)
  ∨ bank_do self c = (Bank.clear_all_data self).2.
Proof.
  destruct c; simpl.
  - unfold Bank.add_customer. case_bool_decide; [by left | right; left].
    by eexists.
  - unfold Bank.remove_customer.
    destruct (_ !! customer_id) as [c0 |]; [| by left].
    destruct (Customer.account_numbers c0); [| by left].
    right; left. by eexists.
  - destruct (create_account_cases rnd self customer_id account_type
                initial_balance kwargs)
      as [[_ ->] | (a & c0 & _ & _ & _ & _ & _ & ->)]; [by left |].
    right; left. by eexists.
  - unfold Bank.deposit.
    destruct (_ !! account_number) as [a |] eqn:Ha; [| by left].
    pose proof (account_deposit_rejected a amount) as Hrej.
    destruct (Account.deposit a amount) as [[] a']; simpl in *.
    + right; left. by eexists.
    + left. rewrite Hrej by done. by apply set_accounts_id.
  - unfold Bank.withdraw.
    destruct (_ !! account_number) as [a |] eqn:Ha; [| by left].
    pose proof (account_withdraw_rejected a amount) as Hrej.
    destruct (Account.withdraw a amount) as [[] a']; simpl in *.
    + right; left. by eexists.
    + left. rewrite Hrej by done. by apply set_accounts_id.
  - destruct (Bank._accounts self !! from_acc_num) as [a |] eqn:HA;
      [| unfold Bank.transfer_funds; rewrite HA; by left].
    destruct (Bank._accounts self !! to_acc_num) as [b |] eqn:HB;
      [| unfold Bank.transfer_funds; rewrite HA, HB; by left].
    rewrite (transfer_funds_unfold _ _ _ _ a b HA HB).
    destruct (Qle_bool amount 0); [by left |].
    destruct (negb _); [by left |]. right; left. by eexists.
  - destruct (apply_all_interest_cases self) as [[-> _] | ->]; [by left |].
    right; left. by eexists.
  - by right; right.
Qed.

Lemma load_data_disk (d : Bank.Disk) (self : Bank.t) :
  Bank._load_data d = Return self → Bank.disk self = d.
Proof. by intros (? & ? & -> & _)%load_data_parts. Qed.

(** The state stays the one a restart would load. *)
Lemma bank_do_durable (self : Bank.t) (c : bank_call) :
  Bank.__init__ (Bank.disk self) = Return self →
  Bank.__init__ (Bank.disk (bank_do self c)) = Return (bank_do self c).
Proof.
  intros Hdur.
  pose proof (bank_do_inv self c (load_data_inv _ _ Hdur)) as Hinv.
  pose proof (bank_do_refs self c (load_data_refs _ _ Hdur)) as Hrefs.
  destruct (bank_do_shape self c) as [-> | [[x Hx] | ->]]; [done | |].
  - rewrite Hx in *. by apply save_load_inv.
  - unfold Bank.__init__, Bank._load_data. simpl.
    unfold mbind, result_bind. simpl. by rewrite fmap_empty.
Qed.



End restart.

(** ** Customers and their accounts over time *)

Section ownership.
Local Open Scope Q_scope.

Lemma add_account_number_grows (c : Customer.t) (n : string) :
  ∃ l, Customer.add_account_number c n
       = Customer.set_account_numbers c (Customer.account_numbers c ++ l).
Proof.
  unfold Customer.add_account_number. case_bool_decide.
  - exists []. by rewrite app_nil_r, set_account_numbers_id.
  - by exists [n].
Qed.

(** One call other than [clear_all_data] keeps every customer that lists an
    account, and changes at most its list, by appending. *)
Lemma bank_do_grows (self : Bank.t) (c0 : bank_call) (k : string)
    (c : Customer.t) :
  is_clear c0 = false →
  Bank._customers self !! k = Some c →
  Customer.account_numbers c ≠ [] →
  ∃ l, Bank._customers (bank_do self c0) !! k
       = Some (Customer.set_account_numbers c
                 (Customer.account_numbers c ++ l)).
Proof.
  intros Hclear Hk Hne.
  assert (Bank._customers self !! k
          = Some (Customer.set_account_numbers c
                    (Customer.account_numbers c ++ []))) as Hsame.
  { by rewrite app_nil_r, set_account_numbers_id. }
  destruct (is_money_call c0) eqn:Hmoney.
  { exists []. by rewrite (proj1 (money_call_balances_only self c0 Hmoney)). }
  destruct c0; try done; simpl.
  - exists []. unfold Bank.add_customer. case_bool_decide as Hin; [done |].
    simpl. rewrite lookup_insert_ne; [done |].
    intros Heq. apply Hin. rewrite Heq. by eexists.
  - exists []. unfold Bank.remove_customer.
    destruct (Bank._customers self !! customer_id) as [c1 |] eqn:Hc1;
      [| done].
    destruct (Customer.account_numbers c1) eqn:Hl; [| done]. simpl.
    rewrite lookup_delete_ne; [done |]. intros ->. congruence.
  - destruct (create_account_cases rnd self customer_id account_type
                initial_balance kwargs)
      as [[_ ->] | (a & c1 & _ & Hc1 & _ & _ & _ & ->)]; [by exists [] |].
    simpl. destruct (decide (customer_id = k)) as [-> | Hother].
    + rewrite lookup_insert_eq. assert (c1 = c) as -> by congruence.
      destruct (add_account_number_grows c (pretty rnd)) as [l ->].
      by exists l.
    + exists []. by rewrite lookup_insert_ne.
Qed.

(** No operation takes an account number off a customer.  Over any
    sequence of calls without [clear_all_data], a customer that lists an
    account stays in the store with the same id, name and address, its list
    of account numbers only grows at the end, and [remove_customer] on it
    keeps failing. *)
Theorem account_numbers_never_shrink (self : Bank.t) (cs : list bank_call)
    (k : string) (c : Customer.t) :
  Forall (λ c0, is_clear c0 = false) cs →
  Bank._customers self !! k = Some c →
  Customer.account_numbers c ≠ [] →
  (∃ l, Bank._customers (bank_run self cs) !! k
        = Some (Customer.set_account_numbers c
                  (Customer.account_numbers c ++ l)))
  ∧ Bank.remove_customer (bank_run self cs) k = (false, bank_run self cs).
Proof.
  intros Hall Hk Hne.
  assert (∃ l, Bank._customers (bank_run self cs) !! k
               = Some (Customer.set_account_numbers c
                         (Customer.account_numbers c ++ l))) as [l Hl].
  { induction cs as [| c0 cs IH] using rev_ind.
    - exists []. simpl. by rewrite app_nil_r, set_account_numbers_id.
    - apply Forall_app in Hall as [Hcs Hc0]. apply Forall_inv in Hc0.
      destruct (IH Hcs) as [l Hl]. rewrite bank_run_snoc.
      destruct (bank_do_grows (bank_run self cs) c0 k _ Hc0 Hl) as [l' Hl'].
      { simpl. destruct (Customer.account_numbers c); [done |]. done. }
      exists (l ++ l'). rewrite Hl'. simpl. by rewrite <- app_assoc. }
  split; [by exists l |].
  unfold Bank.remove_customer. rewrite Hl. simpl.
  destruct (Customer.account_numbers c) as [| n ns]; [done |]. done.
Qed.

Lemma account_numbers_never_shrink_witness :
  let cs := [Withdraw "100000000000" 100;
             RemoveCustomer "C1";
             AddCustomer "C1" "Eve" "9 Elm St";
             CreateAccount 200000000000 "C1" "checking" 0 ∅] in
  Bank.remove_customer (bank_run bank_alice_savings cs) "C1"
  = (false, bank_run bank_alice_savings cs).
Proof.
  apply (account_numbers_never_shrink bank_alice_savings
           [Withdraw "100000000000" 100;
            RemoveCustomer "C1";
            AddCustomer "C1" "Eve" "9 Elm St";
            CreateAccount 200000000000 "C1" "checking" 0 ∅]
           "C1"
           {| Customer._customer_id := "C1";
              Customer._name := "Alice";
              Customer._address := "1 Main St";
              Customer._account_numbers := ["100000000000"] |}).
  - repeat constructor.
  - reflexivity.
  - discriminate.
Defined.

Lemma add_account_number_id (c : Customer.t) (n : string) :
  Customer.customer_id (Customer.add_account_number c n)
  = Customer.customer_id c.
Proof. unfold Customer.add_account_number. by case_bool_decide. Qed.

(** One call keeps: every customer under its own id, every account under
    its own number with a holder who lists it. *)
Lemma bank_do_owned (self : Bank.t) (c0 : bank_call) :
  keys_match self → owned self →
  keys_match (bank_do self c0) ∧ owned (bank_do self c0).
Proof.
  intros Hkeys Hown.
  destruct (is_money_call c0) eqn:Hmoney.
  { destruct (money_call_balances_only self c0 Hmoney) as [Hc Ha].
    split; [unfold keys_match; by rewrite Hc |].
    intros k a' Hk. specialize (Ha k). rewrite Hk in Ha.
    inversion Ha as [a ? (Hn & Hh & _) Ha0 |]; subst.
    destruct (Hown k a (eq_sym Ha0)) as (Hnum & c & Hcust & Hin).
    rewrite Hn, Hh, Hc. eauto. }
  destruct c0; try done; simpl.
  - unfold Bank.add_customer. case_bool_decide as Hin; [done |]. simpl.
    split; [by apply map_Forall_insert_2 |].
    intros k a Hk. destruct (Hown k a Hk) as (Hnum & c & Hcust & Hlist).
    split; [done |]. exists c. split; [| done]. simpl.
    rewrite lookup_insert_ne; [done |].
    intros Heq. apply Hin. simpl. rewrite Heq. by eexists.
  - unfold Bank.remove_customer.
    destruct (Bank._customers self !! customer_id) as [c1 |] eqn:Hc1;
      [| done].
    destruct (Customer.account_numbers c1) eqn:Hl; [| done]. simpl.
    split; [by apply map_Forall_delete |].
    intros k a Hk. destruct (Hown k a Hk) as (Hnum & c & Hcust & Hlist).
    split; [done |]. exists c. split; [| done]. simpl.
    rewrite lookup_delete_ne; [done |]. intros Heq.
    rewrite <- Heq, Hc1 in Hcust. injection Hcust as <-.
    rewrite Hl in Hlist. by apply elem_of_nil in Hlist.
  - destruct (create_account_cases rnd self customer_id account_type
                initial_balance kwargs)
      as [[_ ->] | (a & c1 & _ & Hc1 & Hn & Hh & _ & ->)]; [done |].
    simpl. split.
    + apply map_Forall_insert_2; [| done].
      rewrite add_account_number_id. by apply (Hkeys customer_id c1).
    + intros k a' Hk. simpl in *.
      apply lookup_insert_Some in Hk as [[<- <-] | [Hne Hk]].
      * split; [done |]. rewrite Hh, lookup_insert_eq.
        eexists. split; [done |]. apply elem_of_add_account_number. by left.
      * destruct (Hown k a' Hk) as (Hnum & c & Hcust & Hlist).
        split; [done |].
        destruct (decide (customer_id = Account.account_holder_id a'))
          as [Heq | Hother].
        -- rewrite <- Heq, lookup_insert_eq. eexists. split; [done |].
           apply elem_of_add_account_number. right.
           rewrite <- Heq, Hc1 in Hcust. by injection Hcust as ->.
        -- rewrite lookup_insert_ne by done. eauto.
Qed.

(** In a bank started on an empty disk, after any sequence of calls of its
    operations: every customer is stored under its own id, every account
    is stored under its own number, and the holder of every account is a
    customer of the bank who lists the account; no customer lists a number
    without an account. *)
Theorem ledger_from_empty_disk (cs : list bank_call) :
  let self := bank_run empty_bank cs in
  keys_match self ∧ owned self ∧ refs_ok self.
Proof.
  simpl. induction cs as [| c cs IH] using rev_ind.
  - split; [apply map_Forall_empty |].
    split; intros k a; simpl; by rewrite lookup_empty.
  - destruct IH as (Hkeys & Hown & Hrefs). rewrite bank_run_snoc.
    destruct (bank_do_owned (bank_run empty_bank cs) c Hkeys Hown).
    split; [done |]. split; [done |]. by apply bank_do_refs.
Qed.

(** In a state in which no customer lists a number without an account,
    [get_customer_accounts] gives, for a customer of the bank, one account
    for each number the customer lists, in the order of the list: the
    account stored under that number.  For an id that is not in the store
    it gives the empty list. *)
Theorem get_customer_accounts_spec (self : Bank.t) (customer_id : string) :
  (Bank._customers self !! customer_id = None →
     Bank.get_customer_accounts self customer_id = [])
  ∧ (refs_ok self →
     ∀ c, Bank._customers self !! customer_id = Some c →
          Forall2 (λ n a, Bank._accounts self !! n = Some a)
            (Customer.account_numbers c)
            (Bank.get_customer_accounts self customer_id)).
Proof.
  unfold Bank.get_customer_accounts. split; [by intros -> |].
  intros Hrefs c Hc. rewrite Hc.
  assert (∀ n, n ∈ Customer.account_numbers c →
               is_Some (Bank._accounts self !! n)) as Hall.
  { intros n. by apply (Hrefs customer_id c n). }
  induction (Customer.account_numbers c) as [| n l IH]; simpl;
    [constructor |].
  destruct (Hall n) as [a Ha]; [left |]. rewrite Ha. simpl.
  constructor; [done |]. apply IH. intros m Hm. apply Hall. by right.
Qed.

Lemma get_customer_accounts_spec_witness :
  Forall2 (λ n a, Bank._accounts bank_two_accounts !! n = Some a)
    ["100000000000"; "200000000000"]
    (Bank.get_customer_accounts bank_two_accounts "C1").
Proof.
  refine (proj2 (get_customer_accounts_spec bank_two_accounts "C1") _
            {| Customer._customer_id := "C1";
               Customer._name := "Alice";
               Customer._address := "1 Main St";
               Customer._account_numbers :=
                 ["100000000000"; "200000000000"] |} _).
  - apply (bank_do_refs bank_alice_savings
             (CreateAccount 200000000000 "C1" "checking" 50
                {["overdraft_limit" := 20%Q]})).
    apply (bank_do_refs bank_alice
             (CreateAccount 100000000000 "C1" "savings" 100
                {["interest_rate" := 0.05%Q]})).
    apply (bank_do_refs empty_bank (AddCustomer "C1" "Alice" "1 Main St")).
    intros k c n Hk. simpl in Hk. by rewrite lookup_empty in Hk.
  - reflexivity.
Defined.

End ownership.
